(** * AI Travel Assistant: the request client, the two pipelines and the
      weather tool

    A shallow embedding of [travel_assistant.py], [travel_crew.py] and
    [travel_tools.py].

    - A Python [str] is a [string] whose 8-bit characters are read as the
      code points U+0000..U+00FF; texts outside that range are not covered.
    - A Python [int] is a [Z].
    - [st.session_state.results] and [os.environ] are [gmap string string].
    - Effects (HTTP requests, sleeps, log records, status updates, writes to
      the session state) are threaded through a state-and-exception monad
      whose state carries the session and the trace of events, session
      writes included; the remote services are oracles indexed by the number
      of requests already made.
    - Progress captions ([st.write]), the sidebar form, the page layout
      and the health check that precedes the processing block of
      [travel_crew.py] are left out; the model starts where the processing
      block does, with [user_input] already in the session.
    - CrewAI itself is not part of the repository: [Crew.kickoff] under
      [Process.sequential] is taken to run the listed tasks in order and to
      let the first exception through. *)

From Stdlib Require Import ZArith Lia List Ascii String DecimalString.
From stdpp Require Import base option list strings gmap.
Import ListNotations.

Local Open Scope string_scope.
Local Open Scope Z_scope.
Local Open Scope list_scope.

(** ** Python string operations *)

Module PyStr.

(** [str(n)] and [f"{n}"] for an [int]. *)
Definition of_int (n : Z) : string := NilZero.string_of_int (Z.to_int n).

(** [s.startswith(p)]. *)
Fixpoint startswith (p s : string) : bool :=
  match p, s with
  | EmptyString, _ => true
  | String a p', String b s' => if decide (a = b) then startswith p' s' else false
  | String _ _, EmptyString => false
  end.

(** [s.find(sub)]: the lowest index at which [sub] occurs, [None] for -1. *)
Fixpoint find (sub s : string) : option nat :=
  if startswith sub s then Some 0%nat
  else match s with
       | EmptyString => None
       | String _ s' => S <$> find sub s'
       end.

(** [sub in s]. *)
Definition contains (sub s : string) : bool := bool_decide (is_Some (find sub s)).

(** [s[:n]]. *)
Fixpoint take (n : nat) (s : string) : string :=
  match n, s with
  | S n', String c s' => String c (take n' s')
  | _, _ => EmptyString
  end.

(** [s[n:]]. *)
Fixpoint drop (n : nat) (s : string) : string :=
  match n, s with
  | S n', String _ s' => drop n' s'
  | _, _ => s
  end.

(** The scan behind [s.split(sep)] for a non-empty [sep]: [skip] characters
    of a separator just matched are still to be passed over, [cur] is the
    part being collected. *)
Fixpoint split_scan (sep : string) (skip : nat) (cur s : string) : list string :=
  match s with
  | EmptyString => [cur]
  | String c s' =>
      match skip with
      | S k => split_scan sep k cur s'
      | O => if startswith sep s
             then cur :: split_scan sep (Nat.pred (String.length sep)) EmptyString s'
             else split_scan sep 0 (cur +:+ String c EmptyString) s'
      end
  end.

(** [s.split(sep)]; Python raises [ValueError] for an empty separator,
    which is [None] here. *)
Definition split (sep s : string) : option (list string) :=
  match sep with
  | EmptyString => None
  | String _ _ => Some (split_scan sep 0 EmptyString s)
  end.

(** [s.split(sep, 1)]: at most one split, at the first occurrence. *)
Definition split1 (sep s : string) : option (list string) :=
  match sep with
  | EmptyString => None
  | String _ _ =>
      Some match find sep s with
           | Some i => [take i s; drop (i + String.length sep) s]
           | None => [s]
           end
  end.

(** [c.isspace()] for the code points below 256: TAB, LF, VT, FF, CR,
    FS, GS, RS, US, space, NEL and NBSP. *)
Definition isspace (c : ascii) : bool :=
  let n := N_of_ascii c in
  ((9 <=? n) && (n <=? 13) || (28 <=? n) && (n <=? 32)
   || (n =? 133) || (n =? 160))%N.

(** [s.lstrip()]. *)
Fixpoint lstrip (s : string) : string :=
  match s with
  | EmptyString => EmptyString
  | String c s' => if isspace c then lstrip s' else s
  end.

(** [s.rstrip()]. *)
Fixpoint rstrip (s : string) : string :=
  match s with
  | EmptyString => EmptyString
  | String c s' =>
      match rstrip s' with
      | EmptyString => if isspace c then EmptyString else String c EmptyString
      | r => String c r
      end
  end.

(** [s.strip()]. *)
Definition strip (s : string) : string := lstrip (rstrip s).

(** [sub] occurs in [s]. *)
Definition occurs (sub s : string) : Prop :=
  exists pre post, s = pre +:+ sub +:+ post.

(** [before] ends where the first occurrence of [sep] begins. *)
Definition first_occurrence (sep before after : string) : Prop :=
  forall before' after',
    before +:+ sep +:+ after = before' +:+ sep +:+ after' ->
    (String.length before <= String.length before')%nat.

End PyStr.

(** ** Effects *)

(** The session state of one browser session: [st.session_state.results]
    and [st.session_state.processing]. *)
Record Session := mkSession {
  results : gmap string string;
  processing : bool
}.

(** The JSON body sent to the generate endpoint. The constant entry
    [options.temperature = 0.3] is not carried. *)
Record Payload := mkPayload {
  model : string;
  prompt : string;
  stream : bool
}.

(** A CrewAI agent and task, as [create_agents] and [create_tasks] build
    them. *)
Record Agent := mkAgent {
  role : string;
  goal : string;
  backstory : string;
  llm : string;
  verbose : bool
}.

Record Task := mkTask {
  description : string;
  agent : Agent;
  expected_output : string
}.

(** What the program does to the outside, in program order. *)
Inductive Event :=
| EvPost (url : string) (json : Payload) (timeout : Z)  (* requests.post *)
| EvGet (url : string)                                 (* requests.get *)
| EvTask (task : Task)                                 (* a crew task handed to its agent *)
| EvSleep (seconds : Z)                                (* time.sleep *)
| EvLogError (msg : string)                            (* logger.error *)
| EvLogInfo (msg : string)                             (* logger.info *)
| EvLogUnexpected (body : gmap string string)          (* logger.error with the body rendered *)
| EvLogException (msg : string)                        (* logger.exception *)
| EvStError (msg : string)                             (* st.error *)
| EvStatus (state : string)                            (* status.update(state=...) *)
| EvStore (key value : string)                         (* st.session_state.results[key] = value *)
| EvSetResults (r : gmap string string)                (* st.session_state.results = r *)
| EvProcessing (b : bool)                              (* st.session_state.processing = b *)
| EvRerun.                                             (* st.rerun *)

Record World := mkWorld {
  session : Session;
  trace : list Event
}.

(** A Python call either returns a value or raises; the exception is kept
    as its message, [str(e)]. *)
Inductive Outcome (A : Type) :=
| Returns (a : A)
| Raises (e : string).
Arguments Returns {A} a.
Arguments Raises {A} e.

Definition M (A : Type) : Type := World -> Outcome A * World.

Definition ret {A} (a : A) : M A := fun w => (Returns a, w).

Definition bind {A B} (m : M A) (k : A -> M B) : M B :=
  fun w => match m w with
           | (Returns a, w') => k a w'
           | (Raises e, w') => (Raises e, w')
           end.

Definition raise {A} (e : string) : M A := fun w => (Raises e, w).

(** [try: m except Exception as e: h e]. *)
Definition try_except {A} (m : M A) (h : string -> M A) : M A :=
  fun w => match m w with
           | (Returns a, w') => (Returns a, w')
           | (Raises e, w') => h e w'
           end.

#[global] Instance M_ret : MRet M := @ret.
#[global] Instance M_bind : MBind M := fun A B k m => bind m k.

Definition emit (e : Event) : M unit :=
  fun w => (Returns tt, mkWorld (session w) (trace w ++ [e])).

(** [st.session_state.results = r]. *)
Definition set_results (r : gmap string string) : M unit :=
  fun w => (Returns tt,
            mkWorld (mkSession r (processing (session w)))
                    (trace w ++ [EvSetResults r])).

(** [st.session_state.results[k] = v]. *)
Definition store (k v : string) : M unit :=
  fun w => (Returns tt,
            mkWorld (mkSession (<[k:=v]> (results (session w))) (processing (session w)))
                    (trace w ++ [EvStore k v])).

(** [st.session_state.processing = b]. *)
Definition set_processing (b : bool) : M unit :=
  fun w => (Returns tt,
            mkWorld (mkSession (results (session w)) b)
                    (trace w ++ [EvProcessing b])).

(** The requests made, in order. *)
Definition is_request (e : Event) : bool :=
  match e with
  | EvPost _ _ _ | EvGet _ | EvTask _ => true
  | _ => false
  end.

Definition requests (tr : list Event) : list Event := List.filter is_request tr.

Definition is_sleep (e : Event) : bool :=
  match e with EvSleep _ => true | _ => false end.

(** The seconds slept, in order. *)
Definition sleeps (tr : list Event) : list Z :=
  flat_map (fun e => match e with EvSleep s => [s] | _ => [] end) tr.

(** The requests and the sleeps between them, in order. *)
Definition timeline (tr : list Event) : list Event :=
  List.filter (fun e => is_request e || is_sleep e) tr.

(** [w] after the events [evs], the session untouched. *)
Definition extend (w : World) (evs : list Event) : World :=
  mkWorld (session w) (trace w ++ evs).

Definition total (l : list Z) : Z := foldr Z.add 0 l.

(** ** travel_assistant.py: the client *)

(** What one POST to the generate endpoint comes to. *)
Inductive Reply :=
| RequestException (e : string)
    (* raised by requests.post, raise_for_status or response.json *)
| OtherException (e : string)
    (* any exception outside the requests hierarchy *)
| JsonObject (body : gmap string string).
    (* a parsed body: an object whose entries hold text *)

(** [st.session_state.user_input], the dict built by the sidebar form. *)
Record UserInput := mkUserInput {
  start_date : string;
  end_date : string;
  duration : Z;
  from_location : string;
  destination : string;
  num_people : Z;
  traveler_type : string;
  budget_level : string;
  special_requests : string
}.

(** The five planning stages, in the order both pipelines run them. *)
Inductive Stage := Itinerary | Experiences | Recommendations | Safety | Budget.

Definition stage_order : list Stage :=
  [Itinerary; Experiences; Recommendations; Safety; Budget].

(** The key of [results] a stage writes. *)
Definition stage_key (s : Stage) : string :=
  match s with
  | Itinerary => "itinerary"
  | Experiences => "experiences"
  | Recommendations => "recommendations"
  | Safety => "safety"
  | Budget => "budget"
  end.

(** Lifting a pure step that may raise. *)
Definition lift {A} (o : Outcome A) : M A := fun w => (o, w).

Module Assistant.
Section Client.

(** The generate endpoint: the reply to the [n]-th request of the run. *)
Variable ollama : nat -> Payload -> Reply.

Definition OLLAMA_API_URL : string := "http://localhost:11434/api/generate".
Definition OLLAMA_MODEL : string := "llama3.2:latest".

(** [requests.post(OLLAMA_API_URL, json=payload, timeout=timeout)] followed
    by [raise_for_status()] and [json()]. *)
Definition post (payload : Payload) (timeout : Z) : M Reply :=
  fun w =>
    (Returns (ollama (length (requests (trace w))) payload),
     mkWorld (session w) (trace w ++ [EvPost OLLAMA_API_URL payload timeout])).

(** The body of [for attempt in range(max_retries)], with [iters]
    iterations left. *)
Fixpoint query_llama_loop (payload : Payload) (max_retries timeout : Z)
    (iters : nat) (attempt : Z) : M string :=
  match iters with
  | O => ret "Error: LLM request failed"
  | S iters' =>
      reply ← post payload timeout;
      match reply with
      | JsonObject response_data =>
          match response_data !! "response" with
          | Some text => ret text
          | None =>
              emit (EvLogUnexpected response_data);;
              ret "Error: Invalid response format from LLM"
          end
      | RequestException e =>
          emit (EvLogError ("Attempt " +:+ PyStr.of_int (attempt + 1)
                            +:+ " failed: " +:+ e));;
          if attempt <? max_retries - 1 then
            let wait_time := 2 ^ attempt in
            emit (EvLogInfo ("Retrying in " +:+ PyStr.of_int wait_time
                             +:+ " seconds..."));;
            emit (EvSleep wait_time);;
            query_llama_loop payload max_retries timeout iters' (attempt + 1)
          else
            emit (EvLogError ("All retries failed for prompt: "
                              +:+ PyStr.take 50 (prompt payload) +:+ "..."));;
            ret ("Error: LLM request failed after " +:+ PyStr.of_int max_retries
                 +:+ " attempts")
      | OtherException e => raise e
      end
  end.

(** [query_llama(prompt, max_retries=3, timeout=120)]. *)
Definition query_llama (prompt : string) (max_retries timeout : Z) : M string :=
  let payload := mkPayload OLLAMA_MODEL prompt false in
  query_llama_loop payload max_retries timeout (Z.to_nat max_retries) 0.

Definition planner_agent_prompt (user_input : UserInput) : string :=
  "
    You are a Senior Travel Planner. Create a "
  +:+ PyStr.of_int (duration user_input)
  +:+ "-day itinerary for a trip from "
  +:+ start_date user_input
  +:+ " to "
  +:+ end_date user_input
  +:+ ".
    Destination: "
  +:+ destination user_input
  +:+ "
    Travelers: "
  +:+ PyStr.of_int (num_people user_input)
  +:+ " "
  +:+ traveler_type user_input
  +:+ " travelers
    Special requests: "
  +:+ special_requests user_input
  +:+ "
    
    Output format:
    # Travel Itinerary for "
  +:+ destination user_input
  +:+ "
    ## Day 1: [Date]
    - [Time]: [Activity]
    - [Time]: [Activity]
    ...
    ".

Definition planner_agent (user_input : UserInput) : M string :=
  query_llama (planner_agent_prompt user_input) 3 120.

Definition experience_agent_prompt (user_input : UserInput) : string :=
  "
    You are a Local Experience Specialist. Recommend activities in "
  +:+ destination user_input
  +:+ " for "
  +:+ traveler_type user_input
  +:+ " travelers.
    Special requests: "
  +:+ special_requests user_input
  +:+ "
    
    Output format:
    # Local Experiences in "
  +:+ destination user_input
  +:+ "
    ## Must-Try Activities
    - [Activity 1]: [Description]
    - [Activity 2]: [Description]
    
    ## Cultural Experiences
    - [Experience 1]: [Description]
    ".

Definition experience_agent (user_input : UserInput) : M string :=
  query_llama (experience_agent_prompt user_input) 3 120.

Definition recommendation_agent_prompt (user_input : UserInput) : string :=
  "
    You are a Hospitality Concierge. Recommend hotels and transport in "
  +:+ destination user_input
  +:+ " for "
  +:+ PyStr.of_int (num_people user_input)
  +:+ " "
  +:+ traveler_type user_input
  +:+ " travelers.
    Budget level: "
  +:+ budget_level user_input
  +:+ "
    
    Output format:
    # Accommodations & Transport
    ## Hotels
    - [Option 1]: [Price range], [Features]
    
    ## Transportation
    - [Option 1]: [Description]
    ".

Definition recommendation_agent (user_input : UserInput) : M string :=
  query_llama (recommendation_agent_prompt user_input) 3 120.

Definition safety_agent_prompt (user_input : UserInput) : string :=
  "
    You are a Travel Security Advisor. Provide safety tips for "
  +:+ destination user_input
  +:+ " during "
  +:+ start_date user_input
  +:+ " to "
  +:+ end_date user_input
  +:+ ".
    
    Output format:
    # Safety Information
    ## Travel Advisories
    - [Advisory 1]
    
    ## Health Recommendations
    - [Recommendation 1]
    
    ## Emergency Contacts
    - [Contact 1]
    ".

Definition safety_agent (user_input : UserInput) : M string :=
  query_llama (safety_agent_prompt user_input) 3 120.

Definition budget_agent_prompt (user_input : UserInput) : string :=
  "
    You are a Travel Finance Manager. Estimate costs for "
  +:+ PyStr.of_int (num_people user_input)
  +:+ " people traveling to "
  +:+ destination user_input
  +:+ " for "
  +:+ PyStr.of_int (duration user_input)
  +:+ " days. Also suggest packing items.
    
    Output format:
    # Budget Estimate
    ## Cost Breakdown
    - Accommodation: [Estimate]
    - Transportation: [Estimate]
    - Total: [Total Estimate]
    
    # Packing List
    - [Category 1]
      - [Item 1]
      - [Item 2]
    ".

Definition budget_agent (user_input : UserInput) : M string :=
  query_llama (budget_agent_prompt user_input) 3 120.

(** ** travel_assistant.py: the pipeline *)

(** Lines 226-232: the split of the budget stage's text into the
    [budget] and [packing] entries. *)
Definition split_budget (budget_result : string) : Outcome (string * string) :=
  if PyStr.contains "Packing List" budget_result then
    match PyStr.split "# Packing List" budget_result with
    | None => Raises "empty separator"
    | Some parts =>
        match parts with
        | [] => Raises "list index out of range"
        | part0 :: rest =>
            Returns (part0,
                     match rest with
                     | part1 :: _ => "# Packing List" +:+ part1
                     | [] => ""
                     end)
        end
    end
  else Returns (budget_result, "Packing list not generated").

(** The [try] body of the processing block. *)
Definition run_agents (user_input : UserInput) : M unit :=
  itinerary ← planner_agent user_input;
  store "itinerary" itinerary;;
  experiences ← experience_agent user_input;
  store "experiences" experiences;;
  recommendations ← recommendation_agent user_input;
  store "recommendations" recommendations;;
  safety ← safety_agent user_input;
  store "safety" safety;;
  budget_result ← budget_agent user_input;
  sections ← lift (split_budget budget_result);
  store "budget" sections.1;;
  store "packing" sections.2;;
  emit (EvStatus "complete");;
  set_processing false;;
  emit EvRerun.

(** The [except Exception as e] handler. *)
Definition planning_failed (e : string) : M unit :=
  emit (EvStError ("Planning failed: " +:+ e));;
  set_processing false;;
  emit (EvStatus "error");;
  emit (EvLogException "Planning failed").

(** [if st.session_state.processing: ...]. *)
Definition processing_block (user_input : UserInput) : M unit :=
  fun w =>
    if processing (session w)
    then try_except (run_agents user_input) planning_failed w
    else (Returns tt, w).

(** The agent function and the prompt of each stage. *)
Definition stage_prompt (s : Stage) : UserInput -> string :=
  match s with
  | Itinerary => planner_agent_prompt
  | Experiences => experience_agent_prompt
  | Recommendations => recommendation_agent_prompt
  | Safety => safety_agent_prompt
  | Budget => budget_agent_prompt
  end.

Definition stage_agent (s : Stage) : UserInput -> M string :=
  match s with
  | Itinerary => planner_agent
  | Experiences => experience_agent
  | Recommendations => recommendation_agent
  | Safety => safety_agent
  | Budget => budget_agent
  end.

(** The POST a stage sends, once per attempt. *)
Definition stage_post (user_input : UserInput) (s : Stage) : Event :=
  EvPost OLLAMA_API_URL (mkPayload OLLAMA_MODEL (stage_prompt s user_input) false) 120.

(** From [w], the stages of [done] return the texts paired with them, one
    after the other, each text being stored under its stage's key; [w']
    is the world after the last store. *)
Fixpoint stages_complete (user_input : UserInput) (done : list (Stage * string))
    (w w' : World) : Prop :=
  match done with
  | [] => w' = w
  | (s, text) :: rest =>
      exists w1,
        stage_agent s user_input w = (Returns text, w1)
        /\ stages_complete user_input rest (store (stage_key s) text w1).2 w'
  end.

End Client.

Section Form.

(** [str(date)] for a [datetime.date], a date being kept as its ordinal
    day number. *)
Variable isoformat : Z -> string.

(** The body of [if st.button("Plan My Trip", ...)]. Returns the dict
    assigned to [st.session_state.user_input], [None] when the dates are
    turned down. *)
Definition plan_my_trip (start_date end_date : Z) (from_location destination : string)
    (num_people : Z) (traveler_type budget_level special_requests : string)
    : M (option UserInput) :=
  if end_date <=? start_date then
    emit (EvStError "End date must be after start date");;
    ret None
  else
    set_processing true;;
    ret (Some (mkUserInput (isoformat start_date) (isoformat end_date)
                           (end_date - start_date) from_location destination
                           num_people traveler_type budget_level special_requests)).

End Form.
End Assistant.

(** ** travel_crew.py *)

(** What running one task comes to: the task's [output.raw] ([None] when
    the task is left without output), or an exception. *)
Inductive TaskReply :=
| TaskOutput (raw : option string)
| TaskException (e : string).

(** What the GET of [get_ollama_models] comes to: an exception (raised by
    [requests.get], [raise_for_status], [json] or by a body that is no
    object), or the parsed body with its [models] entry ([None] when the
    key is absent), each model with its [name] ([None] when absent). *)
Inductive ModelsReply :=
| ModelsException (e : string)
| ModelsJson (models : option (list (option string))).

(** What the GET of [check_ollama_health] comes to. *)
Inductive HealthReply :=
| HealthRequestException (e : string)
| HealthOtherException (e : string)
| HealthStatus (status_code : Z).

Module Crew.
Section Pipeline.

(** The agent runtime: the outcome of the [n]-th task handed over. *)
Variable execute_task : nat -> Task -> TaskReply.

Definition OLLAMA_MODEL : string := "ollama/llama3.2:latest".

Definition create_agents (model : string) : Agent * Agent * Agent * Agent * Agent :=
  let agent_llm := model in
  let planner :=
    mkAgent "Senior Travel Planner"
      "Create personalized travel itineraries"
      "Expert travel planner with 20+ years experience crafting perfect schedules"
      agent_llm true in
  let experience :=
    mkAgent "Local Experience Specialist"
      "Recommend unique local experiences and cultural activities"
      "Cultural anthropologist and world traveler with deep local knowledge"
      agent_llm true in
  let recommendation :=
    mkAgent "Hospitality Concierge"
      "Suggest accommodations, transportation, and dining options"
      "Former five-star hotel manager with premium service connections"
      agent_llm true in
  let safety :=
    mkAgent "Travel Security Advisor"
      "Provide safety information and travel advisories"
      "Ex-government security specialist with 15 years in travel risk management"
      agent_llm true in
  let budget :=
    mkAgent "Travel Finance Manager"
      "Create budget estimates and packing suggestions"
      "Financial planner specializing in travel economics"
      agent_llm true in
  (planner, experience, recommendation, safety, budget).

Definition create_tasks (user_input : UserInput)
    (agents : Agent * Agent * Agent * Agent * Agent) : Task * Task * Task * Task * Task :=
  let '(planner, experience, recommendation, safety, budget) := agents in
  let itinerary_task :=
    mkTask
      ("Create a detailed "
       +:+ PyStr.of_int (duration user_input)
       +:+ "-day itinerary for a trip from "
       +:+ start_date user_input
       +:+ " to "
       +:+ end_date user_input
       +:+ ".
        Destination: "
       +:+ destination user_input
       +:+ "
        Travelers: "
       +:+ PyStr.of_int (num_people user_input)
       +:+ " "
       +:+ traveler_type user_input
       +:+ " travelers
        Special requests: "
       +:+ special_requests user_input
       +:+ "

        Output format:
        # Travel Itinerary for "
       +:+ destination user_input
       +:+ "
        ## Day 1: [Date]
        - [Time]: [Activity]
        - [Time]: [Activity]
        ...
        Ensure the output is pure markdown, with no extra text or explanations.
        ")
      planner
      "Markdown formatted daily itinerary" in
  let experience_task :=
    mkTask
      ("Recommend unique and local activities in "
       +:+ destination user_input
       +:+ " for "
       +:+ traveler_type user_input
       +:+ " travelers. Focus on cultural, adventure, and local experiences.
        Special requests: "
       +:+ special_requests user_input
       +:+ "

        Output format:
        # Local Experiences in "
       +:+ destination user_input
       +:+ "
        ## Must-Try Activities
        - [Activity 1]: [Description]
        - [Activity 2]: [Description]

        ## Cultural Experiences
        - [Experience 1]: [Description]
        - [Experience 2]: [Description]
        Ensure the output is pure markdown, with no extra text or explanations.
        ")
      experience
      "Curated list of experiences with descriptions in markdown" in
  let recommendation_task :=
    mkTask
      ("Recommend hotels, transportation, and dining options in "
       +:+ destination user_input
       +:+ " for "
       +:+ PyStr.of_int (num_people user_input)
       +:+ " "
       +:+ traveler_type user_input
       +:+ " travelers.
        Budget level: "
       +:+ budget_level user_input
       +:+ "

        Output format:
        # Accommodations & Transport
        ## Hotels
        - [Hotel Option 1]: [Price range], [Features], [Location]
        - [Hotel Option 2]: [Price range], [Features], [Location]

        ## Transportation
        - [Transport Option 1]: [Description]
        - [Transport Option 2]: [Description]

        ## Dining Suggestions
        - [Restaurant Name 1]: [Cuisine], [Price range], [Notes based on special requests]
        - [Restaurant Name 2]: [Cuisine], [Price range], [Notes based on special requests]
        Ensure the output is pure markdown, with no extra text or explanations.
        ")
      recommendation
      "Structured recommendations with options for hotels, transport, and dining in markdown" in
  let safety_task :=
    mkTask
      ("Provide comprehensive safety tips and travel advisories for "
       +:+ destination user_input
       +:+ " for the period "
       +:+ start_date user_input
       +:+ " to "
       +:+ end_date user_input
       +:+ ". Include health recommendations and essential emergency contacts.

        Output format:
        # Safety Information for "
       +:+ destination user_input
       +:+ "
        ## Travel Advisories
        - [Advisory 1]: [Details]
        - [Advisory 2]: [Details]

        ## Health Recommendations
        - [Recommendation 1]: [Details]
        - [Recommendation 2]: [Details]

        ## Emergency Contacts
        - [Contact Name/Service 1]: [Number]
        - [Contact Name/Service 2]: [Number]
        Ensure the output is pure markdown, with no extra text or explanations.
        ")
      safety
      "Safety briefing document with categorized information in markdown" in
  let budget_task :=
    mkTask
      ("Estimate costs for "
       +:+ PyStr.of_int (num_people user_input)
       +:+ " people traveling to "
       +:+ destination user_input
       +:+ " for "
       +:+ PyStr.of_int (duration user_input)
       +:+ " days, considering a "
       +:+ budget_level user_input
       +:+ " budget.
            Also, suggest a comprehensive packing list based on the destination and travel dates.

        Output format:
        # Budget Estimate for "
       +:+ destination user_input
       +:+ " Trip
        ## Cost Breakdown (Estimates)
        - Accommodation: [Estimate per person/total, e.g., $X/night or $Y total]
        - Transportation: [Estimate per person/total]
        - Food & Dining: [Estimate per person/total]
        - Activities/Experiences: [Estimate per person/total]
        - Miscellaneous: [Estimate per person/total]
        - **Total Estimated Cost:** [Total Estimate]

        # Packing List for "
       +:+ destination user_input
       +:+ " Trip
        ## Clothing
        - [Item 1]
        - [Item 2]
        ## Essentials
        - [Item 1]
        - [Item 2]
        ## Health & Safety
        - [Item 1]
        - [Item 2]
        Ensure the output is pure markdown, with no extra text or explanations.
        ")
      budget
      "Budget breakdown and categorized packing list in markdown" in
  (itinerary_task, experience_task, recommendation_task, safety_task, budget_task).

(** [Crew(agents=..., tasks=..., process=Process.sequential, verbose=True,
    memory=False)]; only what [kickoff] reads is kept. *)
Record CrewOf := mkCrew {
  crew_agents : list Agent;
  crew_tasks : list Task
}.

Definition run_task (t : Task) : M (option string) :=
  fun w =>
    (match execute_task (length (requests (trace w))) t with
     | TaskOutput raw => Returns raw
     | TaskException e => Raises e
     end,
     mkWorld (session w) (trace w ++ [EvTask t])).

(** [Process.sequential]: the tasks run in the order listed and an
    exception of one of them leaves [kickoff]. The result lists each
    task's [output]. *)
Fixpoint run_sequential (ts : list Task) : M (list (option string)) :=
  match ts with
  | [] => ret []
  | t :: ts' =>
      out ← run_task t;
      outs ← run_sequential ts';
      ret (out :: outs)
  end.

Definition kickoff (c : CrewOf) : M (list (option string)) :=
  run_sequential (crew_tasks c).

(** [task.output.raw if task.output else fallback] for the [i]-th task. *)
Definition raw_or (outs : list (option string)) (i : nat) (fallback : string) : string :=
  default fallback (mjoin (outs !! i)).

Definition packing_list_marker : string := "# Packing List".

(** Lines 354-363: the packing list taken out of the raw budget text.
    Returns the [budget] and [packing] entries; where the marker is absent
    the [budget] entry stays as it is. *)
Definition extract_packing (budget_output_raw : string) : Outcome (string * string) :=
  if PyStr.contains packing_list_marker budget_output_raw then
    match PyStr.split1 packing_list_marker budget_output_raw with
    | None => Raises "empty separator"
    | Some parts =>
        match parts !! 0%nat, parts !! 1%nat with
        | Some part0, Some part1 =>
            Returns (PyStr.strip part0, packing_list_marker +:+ PyStr.strip part1)
        | _, _ => Raises "list index out of range"
        end
    end
  else Returns (budget_output_raw, "Packing list section not found in budget output.").

(** The [try] body of the processing block. *)
Definition run_crew (selected_model : string) (user_input : UserInput) : M unit :=
  let agents := create_agents selected_model in
  let '(planner, experience, recommendation, safety, budget) := agents in
  let '(itinerary_task, experience_task, recommendation_task, safety_task, budget_task) :=
    create_tasks user_input agents in
  let travel_crew :=
    mkCrew [planner; experience; recommendation; safety; budget]
           [itinerary_task; experience_task; recommendation_task; safety_task; budget_task] in
  outs ← kickoff travel_crew;
  let results : gmap string string :=
    <["budget" := raw_or outs 4 "No budget generated."]>
    (<["safety" := raw_or outs 3 "No safety info generated."]>
    (<["recommendations" := raw_or outs 2 "No recommendations generated."]>
    (<["experiences" := raw_or outs 1 "No experiences generated."]>
    (<["itinerary" := raw_or outs 0 "No itinerary generated."]> ∅)))) in
  sections ← lift (extract_packing (raw_or outs 4 "No budget generated."));
  let results := <["packing" := sections.2]> (<["budget" := sections.1]> results) in
  set_results results;;
  emit (EvStatus "complete");;
  set_processing false;;
  emit EvRerun.

(** The [except Exception as e] handler. *)
Definition planning_failed (e : string) : M unit :=
  emit (EvStError ("Planning failed: " +:+ e));;
  set_processing false;;
  emit (EvStatus "error");;
  emit (EvLogException "CrewAI planning failed");;
  set_results {[ "error" := "Failed to generate plan: " +:+ e ]};;
  emit EvRerun.

(** [if st.session_state.processing: ...]. *)
Definition processing_block (selected_model : string) (user_input : UserInput) : M unit :=
  fun w =>
    if processing (session w)
    then try_except (run_crew selected_model user_input) planning_failed w
    else (Returns tt, w).

(** The task of each stage. *)
Definition stage_task (selected_model : string) (user_input : UserInput) (s : Stage) : Task :=
  let '(itinerary_task, experience_task, recommendation_task, safety_task, budget_task) :=
    create_tasks user_input (create_agents selected_model) in
  match s with
  | Itinerary => itinerary_task
  | Experiences => experience_task
  | Recommendations => recommendation_task
  | Safety => safety_task
  | Budget => budget_task
  end.

End Pipeline.

Section Page.

Variable isoformat : Z -> string.
Variable models_api : nat -> string -> ModelsReply.
Variable health_api : nat -> string -> HealthReply.
Variable execute_task : nat -> Task -> TaskReply.

Definition OLLAMA_BASE_URL : string := "http://localhost:11434".

(** [get_ollama_models()]. The timeout of the GET is not recorded. *)
Definition get_ollama_models : M (list string) :=
  fun w =>
    let url := OLLAMA_BASE_URL +:+ "/api/tags" in
    let w1 := mkWorld (session w) (trace w ++ [EvGet url]) in
    match models_api (length (requests (trace w))) url with
    | ModelsException e =>
        (emit (EvLogError ("Failed to fetch models: " +:+ e));;
         ret [OLLAMA_MODEL]) w1
    | ModelsJson models =>
        match mapM id (default [] models) with
        | Some names => ret ((fun name => "ollama/" +:+ name) <$> names) w1
        | None =>
            (emit (EvLogError "Failed to fetch models: 'name'");;
             ret [OLLAMA_MODEL]) w1
        end
    end.

(** [l.index(x)], [None] for the [ValueError] of an absent [x]. *)
Fixpoint list_index (x : string) (l : list string) : option nat :=
  match l with
  | [] => None
  | y :: l' => if decide (y = x) then Some 0%nat else S <$> list_index x l'
  end.

(** The model settings of the sidebar: the list offered by the select box
    and the index it starts at. *)
Definition model_settings : M (list string * nat) :=
  available_models ← get_ollama_models;
  let available_models :=
    if bool_decide (OLLAMA_MODEL ∈ available_models) then available_models
    else OLLAMA_MODEL :: available_models in
  let index :=
    if bool_decide (OLLAMA_MODEL ∈ available_models)
    then default 0%nat (list_index OLLAMA_MODEL available_models)
    else 0%nat in
  ret (available_models, index).

(** The body of [if st.button("Plan My Trip", ...)]; see
    [Assistant.plan_my_trip]. *)
Definition plan_my_trip (start_date end_date : Z) (from_location destination : string)
    (num_people : Z) (traveler_type budget_level special_requests : string)
    : M (option UserInput) :=
  if end_date <=? start_date then
    emit (EvStError "End date must be after start date");;
    ret None
  else
    set_results ∅;;
    set_processing true;;
    emit EvRerun;;
    ret (Some (mkUserInput (isoformat start_date) (isoformat end_date)
                           (end_date - start_date) from_location destination
                           num_people traveler_type budget_level special_requests)).

(** [check_ollama_health()]. *)
Definition check_ollama_health : M bool :=
  fun w =>
    let url := OLLAMA_BASE_URL +:+ "/api/tags" in
    let w1 := mkWorld (session w) (trace w ++ [EvGet url]) in
    match health_api (length (requests (trace w))) url with
    | HealthStatus status_code => ret (bool_decide (status_code = 200)) w1
    | HealthRequestException e =>
        (emit (EvLogError ("Ollama health check failed: " +:+ e));;
         ret false) w1
    | HealthOtherException e => raise e w1
    end.

(** The main content from the health check on: [st.stop()] ends the script
    before the processing block when the service is not detected. *)
Definition main_content (selected_model : string) (user_input : UserInput) : M unit :=
  healthy ← check_ollama_health;
  if negb healthy then
    emit (EvStError ("Ollama service not detected at " +:+ OLLAMA_BASE_URL
                     +:+ ". Please ensure Ollama is running."))
  else processing_block execute_task selected_model user_input.

End Page.
End Crew.

(** ** travel_tools.py *)

(** The body of a weather response, as far as [_run] reads it: [cod] (a
    number or a text), [message], [main] with its [temp] already rendered
    as text, and the [description] of each entry of [weather]. An absent
    key is [None]. *)
Record WeatherBody := mkWeatherBody {
  cod : option (Z + string);
  message : option string;
  main : option (option string);
  weather : option (list (option string))
}.

(** What one GET to the weather service comes to. *)
Inductive WeatherReply :=
| WeatherRequestException (e : string)
| WeatherOtherException (e : string)
| WeatherJson (body : WeatherBody).

Module WeatherTool.
Section Tool.

(** The weather service: the reply to the [n]-th request. *)
Variable openweathermap : nat -> string -> WeatherReply.

(** [os.environ], after [load_dotenv()]. *)
Variable environ : gmap string string.

Definition name : string := "weather_tool".

(** [requests.get(url).json()]. *)
Definition get_json (url : string) : M WeatherReply :=
  fun w =>
    (Returns (openweathermap (length (requests (trace w))) url),
     mkWorld (session w) (trace w ++ [EvGet url])).

(** [dict[key]], raising [KeyError]. *)
Definition subscript {A} (key : string) (v : option A) : Outcome A :=
  match v with
  | Some a => Returns a
  | None => Raises ("KeyError: " +:+ key)
  end.

(** The [try] body once the response is parsed. *)
Definition read_weather (city : string) (response : WeatherBody) : Outcome (Outcome string) :=
  if bool_decide (cod response = Some (inl 200)) then
    match main response with
    | None => Returns (Raises "main")
    | Some main_ =>
        match weather response with
        | None => Returns (Raises "weather")
        | Some [] => Raises "list index out of range"
        | Some (None :: _) => Returns (Raises "description")
        | Some (Some weather_ :: _) =>
            match main_ with
            | None => Returns (Raises "temp")
            | Some temp =>
                Returns (Returns (city +:+ ": " +:+ temp
                                  +:+ String "176"%char "C, " +:+ weather_))
            end
        end
    end
  else
    let error_message :=
      default "Unknown error from OpenWeatherMap API" (message response) in
    Returns (Returns ("Error fetching weather for " +:+ city +:+ ": " +:+ error_message)).

(** [WeatherTool._run(city)]. In [read_weather] the outer outcome is an
    exception no handler takes, the inner one a [KeyError]. *)
Definition _run (city : string) : M string :=
  let api_key := environ !! "OPENWEATHERMAP_API_KEY" in
  match api_key with
  | None | Some "" =>
      ret "Error: OpenWeatherMap API key not found in environment variables. Please set OPENWEATHERMAP_API_KEY in your .env file."
  | Some api_key =>
      let url := "https://api.openweathermap.org/data/2.5/weather?q=" +:+ city
                 +:+ "&appid=" +:+ api_key +:+ "&units=metric" in
      reply ← get_json url;
      match reply with
      | WeatherRequestException e =>
          ret ("Error connecting to OpenWeatherMap API: " +:+ e)
      | WeatherOtherException e => raise e
      | WeatherJson response =>
          text ← lift (read_weather city response);
          match text with
          | Returns s => ret s
          | Raises _ =>
              ret "Error: Unexpected response format from OpenWeatherMap API. Check city name or API key."
          end
      end
  end.

End Tool.
End WeatherTool.

(** ** Scripted services and a sample request *)

(** An endpoint that answers the [n]-th request with the [n]-th reply of a
    script and refuses connections once the script is used up. *)
Definition scripted (replies : list Reply) : nat -> Payload -> Reply :=
  fun n _ => default (RequestException "connection refused") (replies !! n).

(** An agent runtime that follows a script in the same way. *)
Definition scripted_tasks (replies : list TaskReply) : nat -> Task -> TaskReply :=
  fun n _ => default (TaskException "connection refused") (replies !! n).

Definition answer (text : string) : Reply := JsonObject {[ "response" := text ]}.

Definition sample_input : UserInput :=
  mkUserInput "2024-06-01" "2024-06-08" 7 "New York" "Paris, France" 2
              "Couple" "Mid-range" "Vegetarian food, accessible locations".

(** The sample request with the destination left empty. *)
Definition nowhere_input : UserInput :=
  mkUserInput "2024-06-01" "2024-06-08" 7 "New York" "" 2
              "Couple" "Mid-range" "Vegetarian food, accessible locations".

(** A session in which "Plan My Trip" has just been pressed. *)
Definition pressed : World := mkWorld (mkSession ∅ true) [].

(** The keys a run that goes through writes, in the order they are
    written. *)
Definition result_keys : list string :=
  ["itinerary"; "experiences"; "recommendations"; "safety"; "budget"; "packing"].

(** [results] after the assignments [stored], made in list order. *)
Definition assign_all (results : gmap string string) (stored : list (string * string))
    : gmap string string :=
  foldl (fun r kv => <[kv.1 := kv.2]> r) results stored.

(** ** The partitioner as the specification words it *)

(** Section 4.3, marker present: the budget section is everything before
    the marker, trimmed of trailing whitespace; the packing section is the
    marker concatenated with everything after it, trimmed. *)
Definition spec_sections (marker before after : string) : string * string :=
  (PyStr.rstrip before, PyStr.strip (marker +:+ after)).


(** * Facts about the string operations *)

Module PyStrFacts.
Import PyStr.

Lemma app_cons c s t : String c s +:+ t = String c (s +:+ t).
Proof. reflexivity. Qed.

Lemma app_nil_r s : s +:+ "" = s.
Proof. induction s as [|c s IH]; [done|]. by rewrite app_cons, IH. Qed.

Lemma app_assoc s t u : (s +:+ t) +:+ u = s +:+ (t +:+ u).
Proof. induction s as [|c s IH]; [done|]. by rewrite !app_cons, IH. Qed.

Lemma length_app s t : String.length (s +:+ t) = (String.length s + String.length t)%nat.
Proof. induction s as [|c s IH]; [done|]. rewrite app_cons. simpl. by rewrite IH. Qed.

Lemma startswith_app sub rest : startswith sub (sub +:+ rest) = true.
Proof.
  induction sub as [|c sub IH]; [done|].
  rewrite app_cons. simpl. by rewrite decide_True.
Qed.

Lemma startswith_inv sub s : startswith sub s = true -> exists rest, s = sub +:+ rest.
Proof.
  revert s. induction sub as [|c sub IH]; intros s H.
  - by exists s.
  - destruct s as [|d s]; [done|]. simpl in H.
    destruct (decide (c = d)) as [->|]; [|done].
    destruct (IH _ H) as [rest ->]. by exists rest.
Qed.

Lemma contains_true sub s : contains sub s = true <-> is_Some (find sub s).
Proof. unfold contains. by rewrite bool_decide_eq_true. Qed.

Lemma contains_false sub s : contains sub s = false <-> find sub s = None.
Proof.
  unfold contains. rewrite bool_decide_eq_false, <- eq_None_not_Some. done.
Qed.

Lemma find_prefix sub s : startswith sub s = true -> find sub s = Some 0%nat.
Proof. intros H. destruct s; simpl; by rewrite H. Qed.

(** An occurrence anywhere makes [find] succeed. *)
Lemma find_occurrence sub pre post : is_Some (find sub (pre +:+ sub +:+ post)).
Proof.
  induction pre as [|c pre IH].
  - change ("" +:+ sub +:+ post) with (sub +:+ post).
    rewrite find_prefix by apply startswith_app. eauto.
  - rewrite app_cons. simpl.
    destruct (startswith sub _); [eauto|].
    destruct IH as [i ->]. simpl. eauto.
Qed.

Lemma find_none_no_prefix sub s : find sub s = None -> startswith sub s = false.
Proof. destruct s; simpl; by destruct (startswith sub _). Qed.

Lemma first_occurrence_tail sep c before after :
  first_occurrence sep (String c before) after -> first_occurrence sep before after.
Proof.
  intros H b' a' E. specialize (H (String c b') a').
  rewrite !app_cons, E in H. specialize (H eq_refl). simpl in H. lia.
Qed.

Lemma first_occurrence_no_prefix sep c before after :
  first_occurrence sep (String c before) after ->
  startswith sep (String c before +:+ sep +:+ after) = false.
Proof.
  intros H. destruct (startswith sep _) eqn:E; [|done].
  apply startswith_inv in E as [rest E].
  specialize (H "" rest E). simpl in H. lia.
Qed.

Lemma find_first sep before after :
  first_occurrence sep before after ->
  find sep (before +:+ sep +:+ after) = Some (String.length before).
Proof.
  induction before as [|c before IH]; intros H.
  - change ("" +:+ sep +:+ after) with (sep +:+ after).
    by rewrite find_prefix by apply startswith_app.
  - pose proof (first_occurrence_no_prefix _ _ _ _ H) as Hn.
    rewrite app_cons in *. simpl. simpl in Hn. rewrite Hn.
    rewrite IH by eauto using first_occurrence_tail. done.
Qed.

Lemma take_app before rest : take (String.length before) (before +:+ rest) = before.
Proof.
  induction before as [|c before IH]; [by destruct rest|].
  rewrite app_cons. simpl. by rewrite IH.
Qed.

Lemma drop_app before rest : drop (String.length before) (before +:+ rest) = rest.
Proof.
  induction before as [|c before IH]; [by destruct rest|].
  rewrite app_cons. simpl. by rewrite IH.
Qed.

(** Without an occurrence the scan returns one part. *)
Lemma split_scan_none sep cur s :
  find sep s = None -> split_scan sep 0 cur s = [cur +:+ s].
Proof.
  revert cur. induction s as [|c s IH]; intros cur H.
  - simpl. by rewrite app_nil_r.
  - pose proof (find_none_no_prefix _ _ H) as Hn.
    simpl in H. rewrite Hn in H.
    destruct (find sep s) eqn:E; [done|].
    cbn [split_scan]. rewrite Hn, IH by done.
    by rewrite app_assoc.
Qed.

Lemma split_scan_skip sep x cur s :
  split_scan sep (String.length x) cur (x +:+ s) = split_scan sep 0 cur s.
Proof.
  induction x as [|c x IH]; [done|].
  rewrite app_cons. simpl. apply IH.
Qed.

(** At the first occurrence the scan closes the current part and starts
    afresh behind the separator. *)
Lemma split_scan_first sep before after cur :
  sep <> "" -> first_occurrence sep before after ->
  split_scan sep 0 cur (before +:+ sep +:+ after)
  = (cur +:+ before) :: split_scan sep 0 "" after.
Proof.
  intros Hsep. revert cur. induction before as [|c before IH]; intros cur H.
  - change ("" +:+ sep +:+ after) with (sep +:+ after).
    rewrite app_nil_r. destruct sep as [|c0 sep']; [done|].
    rewrite app_cons. cbn [split_scan].
    rewrite <- app_cons, startswith_app.
    f_equal. apply split_scan_skip.
  - pose proof (first_occurrence_no_prefix _ _ _ _ H) as Hn.
    rewrite app_cons in *. cbn [split_scan]. rewrite Hn.
    rewrite IH by eauto using first_occurrence_tail.
    by rewrite app_assoc.
Qed.

(** The first part of a scan extends [cur] by a prefix of the input. *)
Lemma split_scan_head sep cur s :
  exists mid tail rest,
    split_scan sep 0 cur s = (cur +:+ mid) :: rest /\ s = mid +:+ tail.
Proof.
  revert cur. induction s as [|c s IH]; intros cur.
  - exists "", "", []. simpl. by rewrite app_nil_r.
  - cbn [split_scan]. destruct (startswith sep (String c s)).
    + exists "", (String c s), (split_scan sep (Nat.pred (String.length sep)) "" s).
      by rewrite app_nil_r.
    + destruct (IH (cur +:+ String c "")) as (mid & tail & rest & -> & ->).
      exists (String c mid), tail, rest. by rewrite app_assoc.
Qed.

Lemma find_sound sub s i :
  find sub s = Some i ->
  exists pre post, s = pre +:+ sub +:+ post /\ String.length pre = i.
Proof.
  revert i. induction s as [|c s IH]; intros i H; simpl in H.
  - destruct (startswith sub "") eqn:E; [|done].
    apply startswith_inv in E as [rest E]. exists "", rest. naive_solver.
  - destruct (startswith sub (String c s)) eqn:E.
    + apply startswith_inv in E as [rest E]. exists "", rest. naive_solver.
    + destruct (find sub s) as [j|]; [|done].
      destruct (IH j eq_refl) as (pre & post & -> & <-).
      exists (String c pre), post. naive_solver.
Qed.

(** [sub in s] decides whether [sub] occurs in [s]. *)
Lemma contains_occurs sub s : contains sub s = true <-> occurs sub s.
Proof.
  rewrite contains_true. split.
  - intros [i H]. apply find_sound in H as (pre & post & ? & _). by exists pre, post.
  - intros (pre & post & ->). apply find_occurrence.
Qed.

Lemma not_occurs_find sub s : ~ occurs sub s -> find sub s = None.
Proof.
  intros H. apply contains_false. rewrite <- contains_occurs in H.
  by destruct (contains sub s).
Qed.

Lemma not_contains_not_occurs sub s : contains sub s = false -> ~ occurs sub s.
Proof. rewrite <- contains_occurs. by intros ->. Qed.

Lemma find_le sub pre post i :
  find sub (pre +:+ sub +:+ post) = Some i -> (i <= String.length pre)%nat.
Proof.
  revert i. induction pre as [|c pre IH]; intros i.
  - change ("" +:+ sub +:+ post) with (sub +:+ post).
    rewrite find_prefix by apply startswith_app. naive_solver.
  - rewrite app_cons. cbn [find String.length].
    destruct (startswith sub _); [intros [= <-]; lia|].
    destruct (find sub (pre +:+ sub +:+ post)) as [j|] eqn:E; [|done].
    intros [= <-]. specialize (IH j eq_refl). lia.
Qed.

(** [find] locates the first occurrence. *)
Lemma find_first_occurrence sep before after :
  find sep (before +:+ sep +:+ after) = Some (String.length before) ->
  first_occurrence sep before after.
Proof.
  intros H b' a' E. rewrite E in H. by apply find_le in H.
Qed.

Lemma lstrip_idem s : lstrip (lstrip s) = lstrip s.
Proof.
  induction s as [|c s IH]; [done|].
  simpl. destruct (isspace c) eqn:E; [done|]. simpl. by rewrite E.
Qed.

Lemma lstrip_strip s : lstrip (strip s) = strip s.
Proof. apply lstrip_idem. Qed.

End PyStrFacts.

(** * The budget and packing split *)

Section Split.
Import PyStr PyStrFacts.

Lemma split_none sep s :
  sep <> "" -> find sep s = None -> split sep s = Some [s].
Proof.
  intros Hsep H. destruct sep; [done|].
  unfold split. by rewrite split_scan_none.
Qed.

(** Where the split marker is absent, [split_budget] keeps the input as
    the budget entry; the packing entry depends on the containment test. *)
Lemma split_budget_no_marker budget_result :
  ~ occurs "# Packing List" budget_result ->
  Assistant.split_budget budget_result
  = Returns (budget_result,
             if contains "Packing List" budget_result then ""
             else "Packing list not generated").
Proof.
  intros H. unfold Assistant.split_budget.
  destruct (contains "Packing List" budget_result); [|done].
  by rewrite split_none by (done || by apply not_occurs_find).
Qed.

(** C10: in travel_assistant, a budget text that contains "Packing List"
    but not "# Packing List" is split into a single part, so the budget
    entry is the whole text and the packing entry is the empty string,
    not the placeholder. *)
Theorem split_budget_marker_mismatch (budget_result : string) :
  occurs "Packing List" budget_result ->
  ~ occurs "# Packing List" budget_result ->
  split "# Packing List" budget_result = Some [budget_result]
  /\ Assistant.split_budget budget_result = Returns (budget_result, "")
  /\ Assistant.split_budget budget_result
     <> Returns (budget_result, "Packing list not generated").
Proof.
  intros Hin Hout. split; [|split].
  - by apply split_none, not_occurs_find.
  - rewrite split_budget_no_marker by done.
    apply contains_occurs in Hin. by rewrite Hin.
  - rewrite split_budget_no_marker by done.
    apply contains_occurs in Hin. by rewrite Hin.
Qed.

Lemma split_budget_marker_mismatch_witness :
  split "# Packing List" "Packing List: socks" = Some ["Packing List: socks"]
  /\ Assistant.split_budget "Packing List: socks" = Returns ("Packing List: socks", "")
  /\ Assistant.split_budget "Packing List: socks"
     <> Returns ("Packing List: socks", "Packing list not generated").
Proof.
  apply (split_budget_marker_mismatch "Packing List: socks").
  - apply contains_occurs. vm_compute. reflexivity.
  - apply not_contains_not_occurs. vm_compute. reflexivity.
Defined.

(** C6 as stated fails for travel_assistant: no single placeholder is
    the packing entry of every text without the marker. *)
Lemma placeholder_counterexample :
  ~ exists sentinel : string,
      forall combined,
        ~ occurs "# Packing List" combined ->
        Assistant.split_budget combined = Returns (combined, sentinel).
Proof.
  intros [sentinel H].
  assert (H1 : ~ occurs "# Packing List" "Packing List: socks")
    by (apply not_contains_not_occurs; vm_compute; reflexivity).
  assert (H2 : ~ occurs "# Packing List" "# Budget Estimate only")
    by (apply not_contains_not_occurs; vm_compute; reflexivity).
  apply H in H1. apply H in H2. vm_compute in H1, H2. congruence.
Qed.

(** C6, amended: for a text in which the marker "# Packing List" does not
    occur, both variants keep the whole text as the budget entry.
    travel_crew sets the packing entry to its placeholder. travel_assistant
    sets it to its placeholder when the text does not contain
    "Packing List" either, and to the empty string when it does. *)
Theorem split_without_marker (combined : string) :
  ~ occurs "# Packing List" combined ->
  Crew.extract_packing combined
  = Returns (combined, "Packing list section not found in budget output.")
  /\ Assistant.split_budget combined
     = Returns (combined,
                if contains "Packing List" combined then ""
                else "Packing list not generated").
Proof.
  intros H. split; [|by apply split_budget_no_marker].
  unfold Crew.extract_packing, Crew.packing_list_marker.
  apply not_occurs_find, contains_false in H. by rewrite H.
Qed.

Lemma split_without_marker_witness :
  Crew.extract_packing "# Budget Estimate only"
  = Returns ("# Budget Estimate only", "Packing list section not found in budget output.")
  /\ Assistant.split_budget "# Budget Estimate only"
     = Returns ("# Budget Estimate only", "Packing list not generated").
Proof.
  apply (split_without_marker "# Budget Estimate only").
  apply not_contains_not_occurs. vm_compute. reflexivity.
Defined.

(** The example of section 8 of the specification: neither variant
    yields the sections the specification states for it. *)
Lemma spec_example_counterexample :
  let before := "# Budget Estimate
...
" in
  let after := "
Item A" in
  let combined := before +:+ "# Packing List" +:+ after in
  first_occurrence "# Packing List" before after
  /\ spec_sections "# Packing List" before after
     = ("# Budget Estimate
...", "# Packing List
Item A")
  /\ Crew.extract_packing combined
     = Returns ("# Budget Estimate
...", "# Packing ListItem A")
  /\ Crew.extract_packing combined
     <> Returns (spec_sections "# Packing List" before after)
  /\ Assistant.split_budget combined
     = Returns ("# Budget Estimate
...
", "# Packing List
Item A")
  /\ Assistant.split_budget combined
     <> Returns (spec_sections "# Packing List" before after).
Proof.
  cbv zeta. split.
  - apply find_first_occurrence. vm_compute. reflexivity.
  - vm_compute. repeat split; congruence.
Qed.

(** C5, amended: where the marker "# Packing List" occurs, both variants
    split at its first occurrence. travel_crew: the budget entry is the
    text before the marker stripped of leading and trailing whitespace;
    the packing entry is the marker followed by the text after it, which
    has lost its trailing whitespace (whitespace right behind the marker
    is left open). travel_assistant: the budget entry is the text before
    the marker, untrimmed; the packing entry is the marker followed,
    untrimmed, by a prefix of the text after it, which is all of that
    text when the marker does not occur again. *)
Theorem split_at_first_marker (before after : string) :
  first_occurrence "# Packing List" before after ->
  let combined := before +:+ "# Packing List" +:+ after in
  (exists rest,
      Crew.extract_packing combined
      = Returns (strip before, "# Packing List" +:+ rest)
      /\ lstrip rest = strip after)
  /\ (exists mid tail,
         after = mid +:+ tail
         /\ Assistant.split_budget combined
            = Returns (before, "# Packing List" +:+ mid)
         /\ (~ occurs "# Packing List" after -> mid = after)).
Proof.
  intros Hfirst combined. split.
  - exists (strip after). split; [|apply lstrip_strip].
    unfold Crew.extract_packing, Crew.packing_list_marker, split1, contains.
    subst combined. rewrite (find_first _ _ _ Hfirst).
    rewrite bool_decide_eq_true_2 by eauto.
    rewrite take_app.
    replace (String.length before + String.length "# Packing List")%nat
      with (String.length (before +:+ "# Packing List"))
      by apply length_app.
    rewrite <- app_assoc, drop_app. done.
  - destruct (split_scan_head "# Packing List" "" after)
      as (mid & tail & rest & Hscan & Hafter).
    exists mid, tail. split; [done|].
    assert (Hin : contains "Packing List" combined = true).
    { apply contains_occurs. exists (before +:+ "# "), after.
      subst combined. by rewrite app_assoc. }
    unfold Assistant.split_budget, split. rewrite Hin. subst combined.
    rewrite split_scan_first by done. rewrite Hscan. split; [done|].
    intros Hno. apply not_occurs_find in Hno.
    rewrite (split_scan_none _ "" _ Hno) in Hscan.
    by injection Hscan.
Qed.

Lemma split_at_first_marker_witness :
  let before := " Total: 900
" in
  let after := " for Paris
- socks
" in
  let combined := before +:+ "# Packing List" +:+ after in
  (exists rest,
      Crew.extract_packing combined
      = Returns (strip before, "# Packing List" +:+ rest)
      /\ lstrip rest = strip after)
  /\ (exists mid tail,
         after = mid +:+ tail
         /\ Assistant.split_budget combined
            = Returns (before, "# Packing List" +:+ mid)
         /\ (~ occurs "# Packing List" after -> mid = after)).
Proof.
  apply (split_at_first_marker " Total: 900
" " for Paris
- socks
").
  apply find_first_occurrence. vm_compute. reflexivity.
Defined.

End Split.

(** * The client *)

Section ClientFacts.
Import Assistant.

Variable ollama : nat -> Payload -> Reply.
Variables (prompt : string) (max_retries timeout : Z).

Let payload := mkPayload OLLAMA_MODEL prompt false.
Let the_post := EvPost OLLAMA_API_URL payload timeout.

(** POST then sleep, for the failed attempts [first .. first + k - 1]. *)
Let failed_attempts (first k : nat) : list Event :=
  flat_map (fun i => [the_post; EvSleep (2 ^ Z.of_nat i)]) (seq first k).

Lemma extend_extend w a b : extend (extend w a) b = extend w (a ++ b).
Proof. unfold extend. simpl. by rewrite <- app_assoc. Qed.

Lemma requests_extend w evs :
  length (requests (trace (extend w evs)))
  = (length (requests (trace w)) + length (requests evs))%nat.
Proof. unfold requests. simpl. by rewrite List.filter_app, length_app. Qed.

(** One iteration of the retry loop, by the reply it meets. *)
Lemma loop_step iters a w :
  query_llama_loop ollama payload max_retries timeout (S iters) a w
  = match ollama (length (requests (trace w))) payload with
    | JsonObject response_data =>
        match response_data !! "response" with
        | Some text => (Returns text, extend w [the_post])
        | None =>
            (Returns "Error: Invalid response format from LLM",
             extend w [the_post; EvLogUnexpected response_data])
        end
    | RequestException e =>
        let failed :=
          EvLogError ("Attempt " +:+ PyStr.of_int (a + 1) +:+ " failed: " +:+ e) in
        if a <? max_retries - 1 then
          query_llama_loop ollama payload max_retries timeout iters (a + 1)
            (extend w [the_post; failed;
                       EvLogInfo ("Retrying in " +:+ PyStr.of_int (2 ^ a)
                                  +:+ " seconds...");
                       EvSleep (2 ^ a)])
        else
          (Returns ("Error: LLM request failed after " +:+ PyStr.of_int max_retries
                    +:+ " attempts"),
           extend w [the_post; failed;
                     EvLogError ("All retries failed for prompt: "
                                 +:+ PyStr.take 50 prompt +:+ "...")])
    | OtherException e => (Raises e, extend w [the_post])
    end.
Proof.
  unfold extend. cbn [query_llama_loop].
  unfold mbind, M_bind, bind, post, emit, ret, raise.
  destruct (ollama _ payload) as [e|e|d]; cbn [session trace].
  - destruct (a <? max_retries - 1); cbn [session trace];
      rewrite <- ?app_assoc; reflexivity.
  - reflexivity.
  - destruct (d !! "response"); cbn [session trace];
      rewrite <- ?app_assoc; reflexivity.
Qed.

Lemma loop_succeeds text body k :
  forall iters (a : nat) w,
    (k < iters)%nat ->
    Z.of_nat a + Z.of_nat k < max_retries ->
    (forall i, (i < k)%nat ->
       exists e, ollama (length (requests (trace w)) + i) payload = RequestException e) ->
    ollama (length (requests (trace w)) + k) payload = JsonObject body ->
    body !! "response" = Some text ->
    exists evs,
      query_llama_loop ollama payload max_retries timeout iters (Z.of_nat a) w
      = (Returns text, extend w evs)
      /\ timeline evs = failed_attempts a k ++ [the_post].
Proof.
  induction k as [|k IH]; intros iters a w Hit Ha Hfail Hok Hbody;
    (destruct iters as [|iters]; [lia|]); rewrite loop_step.
  - exists [the_post]. rewrite Nat.add_0_r in Hok. by rewrite Hok, Hbody.
  - destruct (Hfail 0%nat ltac:(lia)) as [e He].
    rewrite Nat.add_0_r in He. rewrite He. cbv zeta.
    rewrite (proj2 (Z.ltb_lt _ _)) by lia.
    replace (Z.of_nat a + 1) with (Z.of_nat (S a)) by lia.
    set (evs0 := [the_post; _; _; _]).
    assert (Hreq : length (requests (trace (extend w evs0)))
                   = S (length (requests (trace w)))).
    { rewrite requests_extend. simpl. lia. }
    destruct (IH iters (S a) (extend w evs0)) as (evs & -> & Htl).
    + lia.
    + lia.
    + intros i Hi. rewrite Hreq.
      destruct (Hfail (S i) ltac:(lia)) as [e' He']. exists e'.
      by rewrite <- He', Nat.add_succ_r.
    + by rewrite Hreq, <- Hok, Nat.add_succ_r.
    + done.
    + exists (evs0 ++ evs). rewrite extend_extend. split; [done|].
      unfold timeline in *. rewrite List.filter_app, Htl. done.
Qed.

Lemma loop_exhausts iters :
  forall (a : nat) w,
    Z.of_nat a + Z.of_nat (S iters) = max_retries ->
    (forall i, (i < S iters)%nat ->
       exists e, ollama (length (requests (trace w)) + i) payload = RequestException e) ->
    exists evs,
      query_llama_loop ollama payload max_retries timeout (S iters) (Z.of_nat a) w
      = (Returns ("Error: LLM request failed after " +:+ PyStr.of_int max_retries
                  +:+ " attempts"),
         extend w evs)
      /\ timeline evs = failed_attempts a iters ++ [the_post].
Proof.
  induction iters as [|iters IH]; intros a w Ha Hfail; rewrite loop_step;
    destruct (Hfail 0%nat ltac:(lia)) as [e He];
    rewrite Nat.add_0_r in He; rewrite He; cbv zeta.
  - rewrite (proj2 (Z.ltb_ge _ _)) by lia. eexists. split; done.
  - rewrite (proj2 (Z.ltb_lt _ _)) by lia.
    replace (Z.of_nat a + 1) with (Z.of_nat (S a)) by lia.
    set (evs0 := [the_post; _; _; _]).
    assert (Hreq : length (requests (trace (extend w evs0)))
                   = S (length (requests (trace w)))).
    { rewrite requests_extend. simpl. lia. }
    destruct (IH (S a) (extend w evs0)) as (evs & -> & Htl).
    + lia.
    + intros i Hi. rewrite Hreq.
      destruct (Hfail (S i) ltac:(lia)) as [e' He']. exists e'.
      by rewrite <- He', Nat.add_succ_r.
    + exists (evs0 ++ evs). rewrite extend_extend. split; [done|].
      unfold timeline in *. rewrite List.filter_app, Htl. done.
Qed.

Lemma requests_timeline evs : requests (timeline evs) = requests evs.
Proof.
  unfold requests, timeline. induction evs as [|e evs IH]; [done|].
  destruct e; simpl; by rewrite ?IH.
Qed.

Lemma sleeps_timeline evs : sleeps (timeline evs) = sleeps evs.
Proof.
  unfold sleeps, timeline. induction evs as [|e evs IH]; [done|].
  destruct e; simpl; by rewrite ?IH.
Qed.

Lemma requests_failed_attempts a k :
  requests (failed_attempts a k ++ [the_post]) = repeat the_post (S k).
Proof.
  revert a. induction k as [|k IH]; intros a; [done|].
  unfold failed_attempts in *. cbn [seq flat_map].
  rewrite <- app_assoc. unfold requests in *.
  rewrite List.filter_app, IH. done.
Qed.

Lemma sleeps_failed_attempts a k :
  sleeps (failed_attempts a k ++ [the_post])
  = List.map (fun i => 2 ^ Z.of_nat i) (seq a k).
Proof.
  revert a. induction k as [|k IH]; intros a; [done|].
  unfold failed_attempts in *. cbn [seq flat_map List.map].
  rewrite <- app_assoc. unfold sleeps in *.
  rewrite flat_map_app, IH. done.
Qed.

Lemma total_powers a k :
  total (List.map (fun i => 2 ^ Z.of_nat i) (seq a k))
  = 2 ^ Z.of_nat a * (2 ^ Z.of_nat k - 1).
Proof.
  revert a. induction k as [|k IH]; intros a; [simpl; lia|].
  cbn [seq List.map total foldr]. fold (total (List.map (fun i => 2 ^ Z.of_nat i) (seq (S a) k))).
  rewrite IH. rewrite !Nat2Z.inj_succ, !Z.pow_succ_r by lia. lia.
Qed.

End ClientFacts.

Section ClientClaims.
Import Assistant.

(** C3: with at least one attempt allowed, an endpoint that fails
    transiently [k] times and then answers is sent exactly [k + 1]
    requests, the answer is returned, and the client sleeps [2 ^ i]
    seconds (the base unit is one second) after failed attempt [i], in
    total [2 ^ k - 1] seconds; an endpoint that fails on all
    [max_retries] attempts is sent exactly [max_retries] requests and no
    sleep follows the last of them. *)
Theorem query_llama_backoff (ollama : nat -> Payload -> Reply)
    (prompt : string) (max_retries timeout : Z) (w : World) :
  1 <= max_retries ->
  let payload := mkPayload OLLAMA_MODEL prompt false in
  let the_post := EvPost OLLAMA_API_URL payload timeout in
  let made := length (requests (trace w)) in
  let base := 1 in
  let backoff (k : nat) :=
    flat_map (fun i => [the_post; EvSleep (base * 2 ^ Z.of_nat i)]) (seq 0 k) in
  (forall (k : nat) (body : gmap string string) (text : string),
      Z.of_nat k < max_retries ->
      (forall i, (i < k)%nat ->
         exists e, ollama (made + i)%nat payload = RequestException e) ->
      ollama (made + k)%nat payload = JsonObject body ->
      body !! "response" = Some text ->
      exists evs,
        query_llama ollama prompt max_retries timeout w = (Returns text, extend w evs)
        /\ timeline evs = backoff k ++ [the_post]
        /\ requests evs = repeat the_post (S k)
        /\ sleeps evs = List.map (fun i => 1 * 2 ^ Z.of_nat i) (seq 0 k)
        /\ total (sleeps evs) = base * (2 ^ Z.of_nat k - 1))
  /\ ((forall i, (i < Z.to_nat max_retries)%nat ->
         exists e, ollama (made + i)%nat payload = RequestException e) ->
      exists evs result,
        query_llama ollama prompt max_retries timeout w = (Returns result, extend w evs)
        /\ timeline evs = backoff (Z.to_nat max_retries - 1)%nat ++ [the_post]
        /\ requests evs = repeat the_post (Z.to_nat max_retries)
        /\ last (timeline evs) = Some the_post).
Proof.
  intros HN payload the_post made base backoff.
  assert (Hb : forall k, backoff k
               = flat_map (fun i => [the_post; EvSleep (2 ^ Z.of_nat i)]) (seq 0 k)).
  { intros k. unfold backoff, base. apply flat_map_ext. intros i.
    by rewrite Z.mul_1_l. }
  assert (Hm : forall k, List.map (fun i => base * 2 ^ Z.of_nat i) (seq 0 k)
               = List.map (fun i => 2 ^ Z.of_nat i) (seq 0 k)).
  { intros k. apply List.map_ext. intros i. unfold base. by rewrite Z.mul_1_l. }
  split.
  - intros k body text Hk Hfail Hok Hbody.
    destruct (loop_succeeds ollama prompt max_retries timeout text body k
                (Z.to_nat max_retries) 0%nat w) as (evs & Hrun & Htl);
      [lia | lia | done | done | done |].
    exists evs. rewrite Hb, Hm. split; [done|]. split; [done|].
    rewrite <- (requests_timeline evs), <- (sleeps_timeline evs), Htl.
    rewrite requests_failed_attempts, sleeps_failed_attempts, total_powers.
    split; [done|]. split; [done|]. simpl. lia.
  - intros Hfail.
    destruct (Z.to_nat max_retries) as [|iters] eqn:E; [lia|].
    destruct (loop_exhausts ollama prompt max_retries timeout iters 0%nat w)
      as (evs & Hrun & Htl); [lia | done |].
    exists evs. eexists. unfold query_llama. rewrite E.
    split; [exact Hrun|]. rewrite Hb.
    replace (S iters - 1)%nat with iters by lia. split; [done|].
    rewrite <- (requests_timeline evs), Htl, requests_failed_attempts.
    split; [done|]. by rewrite last_snoc.
Qed.

Lemma query_llama_backoff_witness :
  (exists evs,
      query_llama
        (scripted [RequestException "timed out"; RequestException "timed out";
                   answer "Day 1"])
        "plan" 3 120 pressed
      = (Returns "Day 1", extend pressed evs)
      /\ length (requests evs) = 3%nat
      /\ sleeps evs = [1; 2]
      /\ total (sleeps evs) = 3)
  /\ (exists evs result,
         query_llama (scripted []) "plan" 3 120 pressed
         = (Returns result, extend pressed evs)
         /\ length (requests evs) = 3%nat
         /\ last (timeline evs)
            = Some (EvPost OLLAMA_API_URL (mkPayload OLLAMA_MODEL "plan" false) 120)).
Proof.
  split.
  - destruct (proj1 (query_llama_backoff
                       (scripted [RequestException "timed out";
                                  RequestException "timed out"; answer "Day 1"])
                       "plan" 3 120 pressed ltac:(lia))
                    2%nat {[ "response" := "Day 1" ]} "Day 1")
      as (evs & Hrun & _ & Hreq & Hsl & Htot).
    + lia.
    + intros i Hi. destruct i as [|[|i]]; [eexists; reflexivity..|lia].
    + reflexivity.
    + reflexivity.
    + exists evs. rewrite Hreq. repeat split; assumption.
  - destruct (proj2 (query_llama_backoff (scripted []) "plan" 3 120 pressed ltac:(lia)))
      as (evs & result & Hrun & _ & Hreq & Hlast).
    + intros i _. eexists. reflexivity.
    + exists evs, result. rewrite Hreq. repeat split; assumption.
Defined.

(** The claim C1, that a caller can tell an exhausted call from model
    output, fails: no test on the value [query_llama] hands back is true
    of every call that used up its three attempts and false of every
    call that was answered. *)
Lemma exhausted_counterexample :
  ~ exists is_exhausted : Outcome string -> bool,
      (forall ollama prompt w,
          (forall i, (i < 3)%nat ->
             exists e, ollama (length (requests (trace w)) + i)%nat
                              (mkPayload OLLAMA_MODEL prompt false)
                       = RequestException e) ->
          is_exhausted (query_llama ollama prompt 3 120 w).1 = true)
      /\ (forall ollama prompt w body text,
             ollama (length (requests (trace w))) (mkPayload OLLAMA_MODEL prompt false)
             = JsonObject body ->
             body !! "response" = Some text ->
             is_exhausted (query_llama ollama prompt 3 120 w).1 = false).
Proof.
  intros (is_exhausted & Hfail & Hok).
  specialize (Hfail (scripted []) "plan" pressed).
  specialize (Hok (scripted [answer "Error: LLM request failed after 3 attempts"])
                  "plan" pressed _ "Error: LLM request failed after 3 attempts"
                  eq_refl eq_refl).
  assert (Hall : forall i, (i < 3)%nat ->
            exists e, scripted [] (length (requests (trace pressed)) + i)%nat
                               (mkPayload OLLAMA_MODEL "plan" false)
                      = RequestException e)
    by (intros i _; eexists; reflexivity).
  specialize (Hfail Hall). vm_compute in Hfail, Hok. congruence.
Qed.

(** When all [max_retries >= 1] attempts fail transiently, [query_llama]
    returns the failure text after exactly [max_retries] requests. *)
Lemma query_llama_exhausts (ollama : nat -> Payload -> Reply)
    (prompt : string) (max_retries timeout : Z) (w : World) :
  1 <= max_retries ->
  (forall i, (i < Z.to_nat max_retries)%nat ->
     exists e, ollama (length (requests (trace w)) + i)%nat
                      (mkPayload OLLAMA_MODEL prompt false)
               = RequestException e) ->
  exists evs,
    query_llama ollama prompt max_retries timeout w
    = (Returns ("Error: LLM request failed after " +:+ PyStr.of_int max_retries
                +:+ " attempts"),
       extend w evs)
    /\ requests evs
       = repeat (EvPost OLLAMA_API_URL (mkPayload OLLAMA_MODEL prompt false) timeout)
                (Z.to_nat max_retries).
Proof.
  intros HN Hfail.
  destruct (Z.to_nat max_retries) as [|iters] eqn:E; [lia|].
  destruct (loop_exhausts ollama prompt max_retries timeout iters 0%nat w)
    as (evs & Hrun & Htl); [lia | done |].
  exists evs. unfold query_llama. rewrite E. split; [exact Hrun|].
  by rewrite <- (requests_timeline evs), Htl, requests_failed_attempts.
Qed.

(** The claim C4, that a response without the [response] entry makes the
    call fail as a typed error, fails: no test on the value handed back
    is true of every such call and false of every call that was
    answered. *)
Lemma malformed_counterexample :
  ~ exists is_malformed : Outcome string -> bool,
      (forall ollama prompt w body,
          ollama (length (requests (trace w))) (mkPayload OLLAMA_MODEL prompt false)
          = JsonObject body ->
          body !! "response" = None ->
          is_malformed (query_llama ollama prompt 3 120 w).1 = true)
      /\ (forall ollama prompt w body text,
             ollama (length (requests (trace w))) (mkPayload OLLAMA_MODEL prompt false)
             = JsonObject body ->
             body !! "response" = Some text ->
             is_malformed (query_llama ollama prompt 3 120 w).1 = false).
Proof.
  intros (is_malformed & Hbad & Hok).
  specialize (Hbad (scripted [JsonObject {[ "error" := "model not found" ]}])
                   "plan" pressed _ eq_refl eq_refl).
  specialize (Hok (scripted [answer "Error: Invalid response format from LLM"])
                  "plan" pressed _ "Error: Invalid response format from LLM"
                  eq_refl eq_refl).
  vm_compute in Hbad, Hok. congruence.
Qed.

(** C4, amended: a parsed response without the [response] entry ends the
    call at once: after that one request, with no sleep and no further
    attempt, [query_llama] logs the body and returns the plain text
    "Error: Invalid response format from LLM"; it does not raise. *)
Theorem query_llama_malformed (ollama : nat -> Payload -> Reply)
    (prompt : string) (max_retries timeout : Z) (w : World)
    (body : gmap string string) :
  1 <= max_retries ->
  ollama (length (requests (trace w))) (mkPayload OLLAMA_MODEL prompt false)
  = JsonObject body ->
  body !! "response" = None ->
  query_llama ollama prompt max_retries timeout w
  = (Returns "Error: Invalid response format from LLM",
     extend w [EvPost OLLAMA_API_URL (mkPayload OLLAMA_MODEL prompt false) timeout;
               EvLogUnexpected body]).
Proof.
  intros HN Hreply Hbody. unfold query_llama.
  destruct (Z.to_nat max_retries) as [|iters] eqn:E; [lia|].
  by rewrite loop_step, Hreply, Hbody.
Qed.

Lemma query_llama_malformed_witness :
  query_llama (scripted [JsonObject {[ "error" := "model not found" ]}])
              "plan" 3 120 pressed
  = (Returns "Error: Invalid response format from LLM",
     extend pressed [EvPost OLLAMA_API_URL (mkPayload OLLAMA_MODEL "plan" false) 120;
                     EvLogUnexpected {[ "error" := "model not found" ]}]).
Proof.
  apply (query_llama_malformed
           (scripted [JsonObject {[ "error" := "model not found" ]}])
           "plan" 3 120 pressed {[ "error" := "model not found" ]}).
  - lia.
  - reflexivity.
  - reflexivity.
Defined.

End ClientClaims.


(** * The pipelines *)

Section PipelineFacts.
Import Assistant.

Variable ollama : nat -> Payload -> Reply.

Lemma bind_run {A B} (m : M A) (k : A -> M B) w :
  (m ≫= k) w
  = match m w with
    | (Returns a, w') => k a w'
    | (Raises e, w') => (Raises e, w')
    end.
Proof. reflexivity. Qed.

Lemma extend_nil w : extend w [] = w.
Proof. destruct w. unfold extend. simpl. by rewrite app_nil_r. Qed.

(** Whatever the endpoint does, the retry loop only appends events; its
    requests all carry the same payload, the first event is a request when
    an attempt is allowed, and an exception it raises is one the endpoint
    raised. *)
Lemma loop_runs prompt max_retries timeout iters :
  let payload := mkPayload OLLAMA_MODEL prompt false in
  forall a w,
    exists o evs n,
      query_llama_loop ollama payload max_retries timeout iters a w = (o, extend w evs)
      /\ requests evs = repeat (EvPost OLLAMA_API_URL payload timeout) n
      /\ (n <= iters)%nat
      /\ (iters <> 0%nat ->
          exists rest, evs = EvPost OLLAMA_API_URL payload timeout :: rest)
      /\ (forall e, o = Raises e -> exists i, ollama i payload = OtherException e).
Proof.
  intros payload. induction iters as [|iters IH]; intros a w.
  - exists (Returns "Error: LLM request failed"), [], 0%nat.
    cbn [query_llama_loop]. unfold ret. rewrite extend_nil.
    repeat split; (done || lia).
  - subst payload. rewrite loop_step.
    destruct (ollama (length (requests (trace w))) _) as [e|e|d] eqn:Hreply.
    + cbv zeta. destruct (a <? max_retries - 1).
      * match goal with
        | |- context [extend w ?l] => set (evs0 := l)
        end.
        destruct (IH (a + 1) (extend w evs0)) as (o & evs & n & -> & Hreq & Hn & _ & Hraise).
        exists o, (evs0 ++ evs), (S n). rewrite extend_extend.
        split; [done|]. split.
        { unfold requests in *. rewrite List.filter_app, Hreq. done. }
        split; [lia|]. split; [|done].
        intros _. eexists. reflexivity.
      * eexists _, _, 1%nat. split; [reflexivity|].
        repeat split; (done || lia || eauto).
    + eexists _, _, 1%nat. split; [reflexivity|].
      split; [done|]. split; [lia|]. split; [eauto|].
      intros e' [= <-]. eauto.
    + destruct (d !! "response"); eexists _, _, 1%nat; (split; [reflexivity|]);
        repeat split; (done || lia || eauto).
Qed.

(** Each stage's agent function is one call of the client with the
    stage's prompt and the default limits. *)
Lemma stage_agent_query s user_input :
  stage_agent ollama s user_input
  = query_llama ollama (stage_prompt s user_input) 3 120.
Proof. by destruct s. Qed.

Lemma stage_agent_runs s user_input w :
  exists o evs n,
    stage_agent ollama s user_input w = (o, extend w evs)
    /\ requests evs = repeat (stage_post user_input s) n
    /\ (1 <= n <= 3)%nat
    /\ (exists rest, evs = stage_post user_input s :: rest)
    /\ (forall e, o = Raises e ->
        exists i, ollama i (mkPayload OLLAMA_MODEL (stage_prompt s user_input) false)
                  = OtherException e).
Proof.
  rewrite stage_agent_query. unfold query_llama.
  destruct (loop_runs (stage_prompt s user_input) 3 120 (Z.to_nat 3) 0 w)
    as (o & evs & n & Hrun & Hreq & Hn & Hfirst & Hraise).
  destruct (Hfirst ltac:(done)) as [rest ->].
  exists o, (stage_post user_input s :: rest), n.
  split; [done|]. split; [done|]. split; [|eauto].
  split; [|simpl in Hn; lia].
  destruct n; [|lia]. discriminate Hreq.
Qed.

(** One stage of [run_agents] in hypothesis [H], which says that the run
    went through: the agent call, then the store. *)
Ltac stage_step s ui H :=
  let o := fresh "o" in
  let text := fresh "text" in
  let evs := fresh "evs" in
  let n := fresh "n" in
  let Hrun := fresh "Hrun" in
  let Hreq := fresh "Hreq" in
  let Hn := fresh "Hn" in
  match type of H with
  | (_ ≫= _) ?w = _ =>
      destruct (stage_agent_runs s ui w) as (o & evs & n & Hrun & Hreq & Hn & _ & _);
      cbn [stage_agent] in Hrun;
      rewrite bind_run, Hrun in H;
      destruct o as [text|]; [|discriminate H];
      try (rewrite bind_run in H; cbn [store] in H)
  end.

Lemma run_agents_success user_input w w' :
  run_agents ollama user_input w = (Returns tt, w') ->
  exists (n : Stage -> nat) evs budget_result b p,
    (forall s, (1 <= n s <= 3)%nat)
    /\ trace w' = trace w ++ evs
                  ++ [EvStore "budget" b; EvStore "packing" p;
                      EvStatus "complete"; EvProcessing false; EvRerun]
    /\ requests evs = flat_map (fun s => repeat (stage_post user_input s) (n s)) stage_order
    /\ split_budget budget_result = Returns (b, p)
    /\ results (session w') !! "budget" = Some b
    /\ results (session w') !! "packing" = Some p
    /\ processing (session w') = false.
Proof.
  intros H. unfold run_agents in H.
  stage_step Itinerary user_input H.
  stage_step Experiences user_input H.
  stage_step Recommendations user_input H.
  stage_step Safety user_input H.
  match type of H with
  | (_ ≫= _) ?w = _ =>
      destruct (stage_agent_runs Budget user_input w)
        as (o & evs3 & n3 & Hrun3 & Hreq3 & Hn3 & _ & _);
      cbn [stage_agent] in Hrun3; rewrite bind_run, Hrun3 in H;
      destruct o as [budget_result|]; [|discriminate H]
  end.
  rewrite bind_run in H. unfold lift at 1 in H.
  destruct (split_budget budget_result) as [[b p]|] eqn:Hsplit; [|discriminate H].
  injection H as <-. clear Hrun Hrun0 Hrun1 Hrun2 Hrun3.
  exists (fun s => match s with
                   | Itinerary => n | Experiences => n0 | Recommendations => n1
                   | Safety => n2 | Budget => n3
                   end),
         (evs ++ [EvStore "itinerary" text] ++ evs0 ++ [EvStore "experiences" text0]
          ++ evs1 ++ [EvStore "recommendations" text1]
          ++ evs2 ++ [EvStore "safety" text2] ++ evs3),
         budget_result, b, p.
  split; [by intros []|]. split.
  { unfold extend. cbn [trace session].
    repeat (progress (simpl; rewrite <- ?app_assoc)). reflexivity. }
  split.
  { unfold requests in *. rewrite !List.filter_app.
    rewrite Hreq, Hreq0, Hreq1, Hreq2, Hreq3. cbn. by rewrite app_nil_r. }
  split; [done|]. cbn.
  split; [|split; [|done]].
  - by rewrite lookup_insert_ne, lookup_insert_eq.
  - by rewrite lookup_insert_eq.
Qed.

End PipelineFacts.

Section CrewFacts.
Import Crew.

Variable execute_task : nat -> Task -> TaskReply.

(** [Process.sequential] hands the tasks over in list order and stops at
    the first that raises. *)
Lemma run_sequential_runs ts :
  forall w,
    exists o n,
      run_sequential execute_task ts w = (o, extend w (List.map EvTask (take n ts)))
      /\ (forall outs, o = Returns outs ->
          n = length ts /\ length outs = length ts)
      /\ (ts <> [] -> (1 <= n)%nat).
Proof.
  induction ts as [|t ts IH]; intros w.
  - exists (Returns []), 0%nat. cbn. unfold ret. rewrite extend_nil.
    split; [done|]. split; [by intros ? [= <-]|done].
  - cbn [run_sequential]. rewrite bind_run. unfold run_task at 1.
    destruct (execute_task _ t) as [raw|e].
    + fold (extend w [EvTask t]).
      destruct (IH (extend w [EvTask t])) as (o & n & Hrun & Hlen & _).
      rewrite bind_run, Hrun, extend_extend.
      exists (match o with Returns outs => Returns (raw :: outs) | Raises e => Raises e end),
             (S n).
      split; [by destruct o|]. split; [|intros _; lia].
      intros outs Ho. destruct o as [outs'|]; [|done].
      injection Ho as <-. destruct (Hlen outs' eq_refl). simpl. lia.
    + exists (Raises e), 1%nat. split; [done|]. split; [done|]. intros _. lia.
Qed.

Lemma run_crew_tasks selected_model user_input w :
  exists o n,
    (1 <= n <= 5)%nat
    /\ (kickoff execute_task
          (mkCrew (let '(p, e, r, s, b) := create_agents selected_model in [p; e; r; s; b])
                  (List.map (stage_task selected_model user_input) stage_order))) w
       = (o, extend w (List.map EvTask
                         (take n (List.map (stage_task selected_model user_input)
                                           stage_order))))
    /\ (forall outs, o = Returns outs -> n = 5%nat).
Proof.
  unfold kickoff. cbn [crew_tasks].
  destruct (run_sequential_runs
              (List.map (stage_task selected_model user_input) stage_order) w)
    as (o & n & Hrun & Hlen & Hpos).
  specialize (Hpos ltac:(done)).
  exists o, (n `min` 5)%nat. split; [lia|]. split.
  - rewrite Hrun. do 3 f_equal.
    destruct n as [|[|[|[|[|[|n]]]]]]; reflexivity.
  - intros outs Ho. destruct (Hlen outs Ho) as [-> _]. reflexivity.
Qed.

Lemma run_crew_success selected_model user_input w w' :
  run_crew execute_task selected_model user_input w = (Returns tt, w') ->
  exists outs r b p,
    trace w' = trace w
               ++ List.map EvTask (List.map (stage_task selected_model user_input) stage_order)
               ++ [EvSetResults r; EvStatus "complete"; EvProcessing false; EvRerun]
    /\ results (session w') = r
    /\ extract_packing (raw_or outs 4 "No budget generated.") = Returns (b, p)
    /\ r !! "budget" = Some b
    /\ r !! "packing" = Some p
    /\ processing (session w') = false.
Proof.
  intros H.
  destruct (run_crew_tasks selected_model user_input w) as (o & n & Hn & Hrun & Hall).
  cbv beta iota zeta delta [run_crew create_agents create_tasks] in H.
  rewrite bind_run in H.
  match type of Hrun with
  | ?lhs = _ =>
      match type of H with
      | context [kickoff execute_task ?c w] =>
          change (kickoff execute_task c w) with lhs in H
      end
  end.
  rewrite Hrun in H. destruct o as [outs|]; [|discriminate H].
  rewrite (Hall outs eq_refl) in H. clear Hrun Hall Hn.
  rewrite bind_run in H. unfold lift at 1 in H.
  destruct (extract_packing _) as [[b p]|] eqn:Hextract; [|discriminate H].
  injection H as <-.
  eexists outs, _, b, p. split.
  { unfold extend. cbn [trace session set_results emit set_processing].
    repeat (progress (simpl; rewrite <- ?app_assoc)). reflexivity. }
  split; [reflexivity|]. split; [exact Hextract|]. cbn.
  split; [|split; [|done]].
  - by rewrite lookup_insert_ne, lookup_insert_eq.
  - by rewrite lookup_insert_eq.
Qed.

(** Whatever happens later, the first thing [run_crew] does is hand the
    itinerary task to its agent. *)
Lemma run_crew_first selected_model user_input w :
  exists rest,
    trace (run_crew execute_task selected_model user_input w).2
    = trace w ++ EvTask (stage_task selected_model user_input Itinerary) :: rest.
Proof.
  destruct (run_crew_tasks selected_model user_input w) as (o & n & Hn & Hrun & Hall).
  cbv beta iota zeta delta [run_crew create_agents create_tasks].
  rewrite bind_run.
  match type of Hrun with
  | ?lhs = _ =>
      match goal with
      | |- context [kickoff execute_task ?c w] =>
          change (kickoff execute_task c w) with lhs
      end
  end.
  rewrite Hrun. destruct n as [|n]; [lia|].
  destruct o as [outs|e].
  - rewrite bind_run. unfold lift at 1.
    destruct (extract_packing _) as [[b p]|e]; eexists;
      unfold extend; cbn [trace session set_results emit set_processing snd];
      repeat (progress (simpl; rewrite <- ?app_assoc)); reflexivity.
  - eexists. reflexivity.
Qed.

End CrewFacts.

(** * The claims about the pipelines *)

(** One completed stage of a run described by [stages_complete]: the
    agent call is replaced by what it returned and the store is carried
    out. *)
Ltac completed_stage :=
  match goal with
  | H : exists _, Assistant.stage_agent ?ol ?s ?ui ?w = (Returns _, _) /\ _ |- _ =>
      let w1 := fresh "w" in
      let Hag := fresh "Hag" in
      let o := fresh "o" in
      let evs := fresh "evs" in
      let n := fresh "n" in
      let Hrun := fresh "Hrun" in
      destruct H as (w1 & Hag & H);
      destruct (stage_agent_runs ol s ui w) as (o & evs & n & Hrun & _);
      rewrite Hrun in Hag; injection Hag as -> <-;
      cbn [Assistant.stage_agent] in Hrun;
      rewrite bind_run, Hrun, bind_run;
      unfold extend in H |- *;
      cbn [store snd stage_key session trace results processing] in H |- *;
      clear Hrun
  end.

(** The stage that raises, and the handler after it. *)
Ltac failing_stage Hfail :=
  unfold extend in Hfail |- *;
  cbn [session trace results processing] in Hfail |- *;
  match type of Hfail with
  | Assistant.stage_agent ?ol ?s ?ui ?w = _ =>
      let o := fresh "o" in
      let evs := fresh "evs" in
      let n := fresh "n" in
      let Hrun := fresh "Hrun" in
      destruct (stage_agent_runs ol s ui w) as (o & evs & n & Hrun & _);
      rewrite Hrun in Hfail; injection Hfail as -> <-;
      cbn [Assistant.stage_agent] in Hrun;
      rewrite bind_run, Hrun;
      unfold Assistant.planning_failed; rewrite !bind_run;
      cbn [emit set_processing session results trace fst snd extend foldl stage_key]
  end.

(** C2: the two variants follow different failure policies. When a stage
    of travel_assistant raises after the stages of [done] returned, the
    session keeps every result stored so far; when the run of travel_crew
    raises, whatever tasks were completed, the session holds nothing but
    the error entry. With at least one stage completed the two sessions
    differ. *)
Theorem failure_policies_differ
    (ollama : nat -> Payload -> Reply) (execute_task : nat -> Task -> TaskReply)
    (selected_model : string) (user_input : UserInput)
    (done : list (Stage * string)) (failing : Stage) (e_a e_c : string)
    (wa wa1 wa2 wc wc1 : World) :
  processing (session wa) = true ->
  processing (session wc) = true ->
  (List.map fst done ++ [failing]) `prefix_of` stage_order ->
  Assistant.stages_complete ollama user_input done wa wa1 ->
  Assistant.stage_agent ollama failing user_input wa1 = (Raises e_a, wa2) ->
  Crew.run_crew execute_task selected_model user_input wc = (Raises e_c, wc1) ->
  let ra := results (session (Assistant.processing_block ollama user_input wa).2) in
  let rc := results (session
                       (Crew.processing_block execute_task selected_model user_input wc).2) in
  ra = foldl (fun r '(s, text) => <[stage_key s := text]> r) (results (session wa)) done
  /\ (forall s text, (s, text) ∈ done -> ra !! stage_key s = Some text)
  /\ rc = {[ "error" := "Failed to generate plan: " +:+ e_c ]}
  /\ (forall s, rc !! stage_key s = None)
  /\ (done <> [] -> ra <> rc).
Proof.
  intros Hpa Hpc [k Hk] Hdone Hfail Hcrew ra rc.
  assert (Hrc : rc = {[ "error" := "Failed to generate plan: " +:+ e_c ]}).
  { subst rc. unfold Crew.processing_block, try_except. by rewrite Hpc, Hcrew. }
  assert (Hnone : forall s, rc !! stage_key s = None).
  { intros s. rewrite Hrc. by destruct s. }
  assert (Hra : ra = foldl (fun r '(s, text) => <[stage_key s := text]> r)
                           (results (session wa)) done).
  { subst ra. unfold Assistant.processing_block, try_except. rewrite Hpa.
    unfold Assistant.run_agents.
    destruct done as [|[s1 t1] [|[s2 t2] [|[s3 t3] [|[s4 t4] [|[s5 t5] done]]]]];
      cbn [List.map fst app] in Hk; unfold stage_order in Hk;
      simplify_eq; try (by destruct (List.map fst done));
      cbn [Assistant.stages_complete] in Hdone;
      repeat completed_stage; subst wa1;
      failing_stage Hfail; reflexivity. }
  assert (Hkept : forall s text, (s, text) ∈ done -> ra !! stage_key s = Some text).
  { intros s text Hin. rewrite Hra. clear Hra Hdone.
    destruct done as [|[s1 t1] [|[s2 t2] [|[s3 t3] [|[s4 t4] [|[s5 t5] done]]]]];
      cbn [List.map fst app] in Hk; unfold stage_order in Hk;
      simplify_eq; try (by destruct (List.map fst done));
      cbn [foldl stage_key];
      repeat (apply elem_of_cons in Hin as [Hin|Hin]; simplify_eq);
      try (by apply elem_of_nil in Hin);
      cbn [stage_key]; by simplify_map_eq. }
  repeat split; try done.
  intros Hne Heq. destruct done as [|[s1 t1] done]; [done|].
  specialize (Hkept s1 t1 ltac:(left)). rewrite Heq, Hnone in Hkept. done.
Qed.

Lemma failure_policies_differ_witness :
  let ollama := scripted [answer "Day 1: Louvre"; OtherException "unhashable type"] in
  let execute_task :=
    scripted_tasks [TaskOutput (Some "Day 1: Louvre"); TaskException "model crashed"] in
  let ra := results (session (Assistant.processing_block ollama sample_input pressed).2) in
  let rc := results (session
                       (Crew.processing_block execute_task Crew.OLLAMA_MODEL
                                              sample_input pressed).2) in
  ra !! "itinerary" = Some "Day 1: Louvre"
  /\ rc = {[ "error" := "Failed to generate plan: model crashed" ]}
  /\ rc !! "itinerary" = None
  /\ ra <> rc.
Proof.
  intros ollama execute_task ra rc.
  pose (wa1 := (store "itinerary" "Day 1: Louvre"
                  (Assistant.planner_agent ollama sample_input pressed).2).2).
  destruct (failure_policies_differ ollama execute_task Crew.OLLAMA_MODEL sample_input
              [(Itinerary, "Day 1: Louvre")] Experiences
              "unhashable type" "model crashed"
              pressed wa1 (Assistant.experience_agent ollama sample_input wa1).2
              pressed (Crew.run_crew execute_task Crew.OLLAMA_MODEL sample_input pressed).2)
    as (_ & Hkept & Hrc & Hnone & Hne).
  - reflexivity.
  - reflexivity.
  - exists [Recommendations; Safety; Budget]. reflexivity.
  - exists (Assistant.planner_agent ollama sample_input pressed).2.
    split; [vm_compute; reflexivity | reflexivity].
  - vm_compute. reflexivity.
  - vm_compute. reflexivity.
  - split; [apply (Hkept Itinerary); left|].
    split; [exact Hrc|]. split; [apply (Hnone Itinerary)|].
    apply Hne. discriminate.
Defined.

(** C8: in a run that goes through, the requests are those of the five
    stages in the order itinerary, experiences, recommendations, safety,
    budget (travel_assistant repeats a stage's request when it retries,
    up to three times; travel_crew hands over one task per stage), and the
    budget and packing entries, split from the budget stage's text, are
    written after the last request and before the status becomes
    complete. *)
Theorem stages_run_in_order
    (ollama : nat -> Payload -> Reply) (execute_task : nat -> Task -> TaskReply)
    (selected_model : string) (user_input : UserInput) (w w' : World) :
  processing (session w) = true ->
  (Assistant.run_agents ollama user_input w = (Returns tt, w') ->
   Assistant.processing_block ollama user_input w = (Returns tt, w')
   /\ exists (n : Stage -> nat) evs budget_result b p,
        (forall s, (1 <= n s <= 3)%nat)
        /\ trace w' = trace w ++ evs
                      ++ [EvStore "budget" b; EvStore "packing" p;
                          EvStatus "complete"; EvProcessing false; EvRerun]
        /\ requests evs
           = flat_map (fun s => repeat (Assistant.stage_post user_input s) (n s))
                      stage_order
        /\ Assistant.split_budget budget_result = Returns (b, p)
        /\ results (session w') !! "budget" = Some b
        /\ results (session w') !! "packing" = Some p
        /\ processing (session w') = false)
  /\ (Crew.run_crew execute_task selected_model user_input w = (Returns tt, w') ->
      Crew.processing_block execute_task selected_model user_input w = (Returns tt, w')
      /\ exists outs r b p,
           trace w' = trace w
                      ++ List.map EvTask
                           (List.map (Crew.stage_task selected_model user_input) stage_order)
                      ++ [EvSetResults r; EvStatus "complete"; EvProcessing false; EvRerun]
           /\ results (session w') = r
           /\ Crew.extract_packing (Crew.raw_or outs 4 "No budget generated.")
              = Returns (b, p)
           /\ r !! "budget" = Some b
           /\ r !! "packing" = Some p
           /\ processing (session w') = false).
Proof.
  intros Hp. split; intros Hrun.
  - split.
    + unfold Assistant.processing_block, try_except. by rewrite Hp, Hrun.
    + by apply (run_agents_success ollama).
  - split.
    + unfold Crew.processing_block, try_except. by rewrite Hp, Hrun.
    + by apply (run_crew_success execute_task).
Qed.

Lemma stages_run_in_order_witness :
  let ollama :=
    scripted [answer "Day 1"; RequestException "timed out"; answer "Markets";
              answer "Hotel"; answer "Stay alert";
              answer "# Budget Estimate
# Packing List
- socks"] in
  let execute_task :=
    scripted_tasks [TaskOutput (Some "Day 1"); TaskOutput (Some "Markets");
                    TaskOutput (Some "Hotel"); TaskOutput (Some "Stay alert");
                    TaskOutput (Some "# Budget Estimate
# Packing List
- socks")] in
  let wa := (Assistant.processing_block ollama sample_input pressed).2 in
  let wc := (Crew.processing_block execute_task Crew.OLLAMA_MODEL sample_input pressed).2 in
  length (requests (trace wa)) = 6%nat
  /\ results (session wa) !! "packing" = Some "# Packing List
- socks"
  /\ requests (trace wc)
     = List.map EvTask (List.map (Crew.stage_task Crew.OLLAMA_MODEL sample_input) stage_order)
  /\ results (session wc) !! "packing" = Some "# Packing List- socks".
Proof.
  intros ollama execute_task wa wc.
  destruct (stages_run_in_order ollama execute_task Crew.OLLAMA_MODEL sample_input
              pressed (Assistant.run_agents ollama sample_input pressed).2 eq_refl)
    as [Ha _].
  destruct (stages_run_in_order ollama execute_task Crew.OLLAMA_MODEL sample_input
              pressed (Crew.run_crew execute_task Crew.OLLAMA_MODEL sample_input pressed).2
              eq_refl)
    as [_ Hc].
  destruct Ha as [_ _]; [vm_compute; reflexivity|].
  destruct Hc as [_ _]; [vm_compute; reflexivity|].
  vm_compute. repeat split.
Defined.

(** The claim C7 fails: with an empty destination every stage of
    travel_assistant still sends its request and returns the answer, and
    travel_crew still hands all five tasks to their agents. *)
Lemma empty_destination_counterexample :
  destination nowhere_input = ""
  /\ Forall (fun s =>
               Assistant.stage_agent (scripted [answer "ok"]) s nowhere_input pressed
               = (Returns "ok", extend pressed [Assistant.stage_post nowhere_input s]))
            stage_order
  /\ requests
       (trace (Crew.processing_block
                 (scripted_tasks (repeat (TaskOutput (Some "ok")) 5))
                 Crew.OLLAMA_MODEL nowhere_input pressed).2)
     = List.map EvTask (List.map (Crew.stage_task Crew.OLLAMA_MODEL nowhere_input) stage_order).
Proof.
  split; [reflexivity|]. split.
  - repeat constructor; vm_compute; reflexivity.
  - vm_compute. reflexivity.
Qed.

(** C7, amended: no stage validates the request. With an empty
    destination each agent function of travel_assistant renders its prompt
    and starts with the request that carries it, raising nothing that the
    endpoint did not raise; travel_crew builds its tasks and starts by
    handing the itinerary task to its agent. *)
Theorem empty_destination_is_sent
    (ollama : nat -> Payload -> Reply) (execute_task : nat -> Task -> TaskReply)
    (selected_model : string) (user_input : UserInput) (w : World) :
  destination user_input = "" ->
  (forall s,
      exists o rest,
        Assistant.stage_agent ollama s user_input w
        = (o, extend w (Assistant.stage_post user_input s :: rest))
        /\ (forall e, o = Raises e ->
            exists i,
              ollama i (mkPayload Assistant.OLLAMA_MODEL
                                  (Assistant.stage_prompt s user_input) false)
              = OtherException e))
  /\ (exists rest,
         trace (Crew.run_crew execute_task selected_model user_input w).2
         = trace w ++ EvTask (Crew.stage_task selected_model user_input Itinerary) :: rest).
Proof.
  intros _. split.
  - intros s.
    destruct (stage_agent_runs ollama s user_input w)
      as (o & evs & n & Hrun & _ & _ & [rest ->] & Hraise).
    by exists o, rest.
  - apply run_crew_first.
Qed.

Lemma empty_destination_is_sent_witness :
  (forall s,
      exists o rest,
        Assistant.stage_agent (scripted [answer "ok"]) s nowhere_input pressed
        = (o, extend pressed (Assistant.stage_post nowhere_input s :: rest)))
  /\ (exists rest,
         trace (Crew.run_crew (scripted_tasks []) Crew.OLLAMA_MODEL nowhere_input pressed).2
         = EvTask (Crew.stage_task Crew.OLLAMA_MODEL nowhere_input Itinerary) :: rest).
Proof.
  destruct (empty_destination_is_sent (scripted [answer "ok"]) (scripted_tasks [])
              Crew.OLLAMA_MODEL nowhere_input pressed eq_refl) as [Ha Hc].
  split; [|exact Hc].
  intros s. destruct (Ha s) as (o & rest & Hrun & _). by exists o, rest.
Defined.

(** * The weather tool *)

(** C9: without OPENWEATHERMAP_API_KEY in the environment, [_run] returns,
    for every city, a message that names the missing key; it raises
    nothing and sends no request, the world being left as it was. *)
Theorem weather_key_missing
    (openweathermap : nat -> string -> WeatherReply) (environ : gmap string string)
    (city : string) (w : World) :
  environ !! "OPENWEATHERMAP_API_KEY" = None ->
  exists msg,
    WeatherTool._run openweathermap environ city w = (Returns msg, w)
    /\ PyStr.occurs "OpenWeatherMap API key not found" msg
    /\ PyStr.occurs "OPENWEATHERMAP_API_KEY" msg.
Proof.
  intros Hkey. unfold WeatherTool._run. rewrite Hkey.
  eexists. split; [reflexivity|].
  split; apply PyStrFacts.contains_occurs; vm_compute; reflexivity.
Qed.

Lemma weather_key_missing_witness :
  exists msg,
    WeatherTool._run (fun _ _ => WeatherRequestException "unreachable") ∅ "London" pressed
    = (Returns msg, pressed)
    /\ PyStr.occurs "OpenWeatherMap API key not found" msg
    /\ PyStr.occurs "OPENWEATHERMAP_API_KEY" msg.
Proof.
  apply (weather_key_missing (fun _ _ => WeatherRequestException "unreachable") ∅
                             "London" pressed).
  reflexivity.
Defined.

(** * Exhausted stages in the pipeline *)

Section Swallowed.
Import Assistant.

Variable ollama : nat -> Payload -> Reply.

(** A later stage of the run in the goal: either it returns and its text
    is stored, or it raises and the handler runs. *)
Ltac later_stage s ui :=
  match goal with
  | |- context [(_ ≫= _) ?w0] =>
      let o := fresh "o" in
      let evs := fresh "evs" in
      let n := fresh "n" in
      let Hrun := fresh "Hrun" in
      destruct (stage_agent_runs ollama s ui w0) as (o & evs & n & Hrun & _);
      cbn [stage_agent] in Hrun; rewrite bind_run, Hrun; clear Hrun;
      destruct o as [?text|?e];
      [ try (rewrite bind_run; cbn [store])
      | unfold planning_failed; rewrite !bind_run;
        cbn [emit set_processing session results trace fst snd extend];
        by simplify_map_eq ]
  end.

Lemma exhausted_itinerary_stored user_input w :
  processing (session w) = true ->
  (forall i, (i < 3)%nat ->
     exists e, ollama (length (requests (trace w)) + i)%nat
                      (mkPayload OLLAMA_MODEL (planner_agent_prompt user_input) false)
               = RequestException e) ->
  results (session (processing_block ollama user_input w).2) !! "itinerary"
  = Some "Error: LLM request failed after 3 attempts".
Proof.
  intros Hp Hfail.
  destruct (loop_exhausts ollama (planner_agent_prompt user_input) 3 120 2 0%nat w)
    as (evs & Hrun & _); [done | done |].
  unfold processing_block, try_except. rewrite Hp. unfold run_agents.
  rewrite bind_run. unfold planner_agent at 1, query_llama.
  change (Z.to_nat 3) with 3%nat. change (Z.of_nat 0) with 0 in Hrun.
  rewrite Hrun. change (PyStr.of_int 3) with "3".
  rewrite bind_run. cbn [store].
  later_stage Experiences user_input.
  later_stage Recommendations user_input.
  later_stage Safety user_input.
  later_stage Budget user_input.
  unfold lift at 1. destruct (split_budget _) as [[b p]|e].
  - rewrite !bind_run.
    cbn [store emit set_processing session results trace fst snd extend].
    by simplify_map_eq.
  - unfold planning_failed. rewrite !bind_run.
    cbn [emit set_processing session results trace fst snd extend].
    by simplify_map_eq.
Qed.

End Swallowed.

(** C1, amended: when all [max_retries >= 1] attempts fail transiently,
    [query_llama] does not raise: after exactly [max_retries] requests it
    returns the plain text "Error: LLM request failed after N attempts", N
    being the attempt count, a value of the same type as model output. The
    pipeline of travel_assistant takes it for the stage's text: when the
    three attempts of the itinerary stage fail, that text is what the
    agent function returns and what the session holds under "itinerary"
    when the processing block ends. *)
Theorem exhaustion_returns_text
    (ollama : nat -> Payload -> Reply) (prompt : string) (max_retries timeout : Z)
    (user_input : UserInput) (w : World) :
  1 <= max_retries ->
  ((forall i, (i < Z.to_nat max_retries)%nat ->
      exists e, ollama (length (requests (trace w)) + i)%nat
                       (mkPayload Assistant.OLLAMA_MODEL prompt false)
                = RequestException e) ->
   exists evs,
     Assistant.query_llama ollama prompt max_retries timeout w
     = (Returns ("Error: LLM request failed after " +:+ PyStr.of_int max_retries
                 +:+ " attempts"),
        extend w evs)
     /\ requests evs
        = repeat (EvPost Assistant.OLLAMA_API_URL
                         (mkPayload Assistant.OLLAMA_MODEL prompt false) timeout)
                 (Z.to_nat max_retries))
  /\ (processing (session w) = true ->
      (forall i, (i < 3)%nat ->
         exists e, ollama (length (requests (trace w)) + i)%nat
                          (mkPayload Assistant.OLLAMA_MODEL
                                     (Assistant.planner_agent_prompt user_input) false)
                   = RequestException e) ->
      (exists evs,
          Assistant.planner_agent ollama user_input w
          = (Returns "Error: LLM request failed after 3 attempts", extend w evs))
      /\ results (session (Assistant.processing_block ollama user_input w).2)
         !! "itinerary"
         = Some "Error: LLM request failed after 3 attempts").
Proof.
  intros HN. split.
  - intros Hfail. by apply query_llama_exhausts.
  - intros Hp Hfail. split.
    + destruct (query_llama_exhausts ollama (Assistant.planner_agent_prompt user_input)
                  3 120 w ltac:(lia) Hfail) as (evs & Hrun & _).
      exists evs. exact Hrun.
    + by apply exhausted_itinerary_stored.
Qed.

Lemma exhaustion_returns_text_witness :
  (exists evs,
      Assistant.query_llama (scripted []) "plan" 3 120 pressed
      = (Returns "Error: LLM request failed after 3 attempts", extend pressed evs)
      /\ length (requests evs) = 3%nat)
  /\ results (session (Assistant.processing_block (scripted []) sample_input pressed).2)
     !! "itinerary"
     = Some "Error: LLM request failed after 3 attempts".
Proof.
  destruct (exhaustion_returns_text (scripted []) "plan" 3 120 sample_input pressed
              ltac:(lia)) as [Hclient Hstage].
  split.
  - destruct Hclient as (evs & Hrun & Hreq).
    + intros i _. eexists. reflexivity.
    + exists evs. rewrite Hreq. split; [exact Hrun | reflexivity].
  - apply Hstage; [reflexivity|]. intros i _. eexists. reflexivity.
Defined.

(** * Further facts about the string operations *)

Module PyStrMore.
Import PyStr PyStrFacts.

Lemma occurs_here x t : occurs x (x +:+ t).
Proof. by exists "", t. Qed.

Lemma occurs_app_r x s t : occurs x t -> occurs x (s +:+ t).
Proof.
  intros (pre & post & ->). exists (s +:+ pre), post. by rewrite app_assoc.
Qed.

Lemma occurs_app_l x s t : occurs x s -> occurs x (s +:+ t).
Proof.
  intros (pre & post & ->). exists pre, (post +:+ t). by rewrite !app_assoc.
Qed.

Lemma occurs_trans x y s : occurs x y -> occurs y s -> occurs x s.
Proof.
  intros Hxy (pre & post & ->). by apply occurs_app_r, occurs_app_l.
Qed.

(** [find] returns the place of the first occurrence, and what it cuts
    off on either side puts the string together again. *)
Lemma find_split sep s i :
  find sep s = Some i ->
  s = take i s +:+ sep +:+ drop (i + String.length sep) s
  /\ first_occurrence sep (take i s) (drop (i + String.length sep) s).
Proof.
  intros H. destruct (find_sound _ _ _ H) as (pre & post & -> & <-).
  rewrite take_app.
  replace (String.length pre + String.length sep)%nat
    with (String.length (pre +:+ sep)) by apply length_app.
  rewrite <- app_assoc, drop_app, app_assoc. split; [done|].
  by apply find_first_occurrence.
Qed.

(** Nothing before the first occurrence contains the separator. *)
Lemma first_occurrence_clean sep before after :
  sep <> "" -> first_occurrence sep before after -> ~ occurs sep before.
Proof.
  intros Hsep Hfirst (pre & post & ->).
  specialize (Hfirst pre (post +:+ sep +:+ after)).
  rewrite !app_assoc in Hfirst. specialize (Hfirst eq_refl).
  rewrite !length_app in Hfirst. destruct sep; [done|]. simpl in Hfirst. lia.
Qed.

Lemma lstrip_suffix s : exists ws, s = ws +:+ lstrip s.
Proof.
  induction s as [|c s [ws IH]]; [by exists ""|].
  simpl. destruct (isspace c); [|by exists ""].
  exists (String c ws). by rewrite app_cons, <- IH.
Qed.

Lemma rstrip_prefix s : exists ws, s = rstrip s +:+ ws.
Proof.
  induction s as [|c s [ws IH]]; [by exists ""|].
  simpl. destruct (rstrip s) as [|d r] eqn:E.
  - destruct (isspace c).
    + exists (String c s). done.
    + exists ws. rewrite app_cons. simpl in IH. by rewrite <- IH.
  - exists ws. rewrite app_cons. by rewrite <- IH.
Qed.

(** What [strip] returns is a piece of its argument. *)
Lemma strip_occurs s : occurs (strip s) s.
Proof.
  unfold strip. destruct (rstrip_prefix s) as [ws2 H2].
  destruct (lstrip_suffix (rstrip s)) as [ws1 H1].
  exists ws1, ws2. by rewrite <- app_assoc, <- H1.
Qed.

Lemma rstrip_idem s : rstrip (rstrip s) = rstrip s.
Proof.
  induction s as [|c s IH]; [done|].
  simpl. destruct (rstrip s) as [|d r] eqn:E.
  - destruct (isspace c) eqn:Hc; [done|]. simpl. by rewrite Hc.
  - simpl. simpl in IH. by rewrite IH.
Qed.

Lemma rstrip_cons_fixed c s : rstrip (String c s) = String c s -> rstrip s = s.
Proof.
  simpl. destruct (rstrip s) as [|d r] eqn:E.
  - destruct (isspace c); [done|]. by intros [= <-].
  - by intros [= <-].
Qed.

Lemma rstrip_lstrip s : rstrip s = s -> rstrip (lstrip s) = lstrip s.
Proof.
  induction s as [|c s IH]; [done|]. intros H.
  simpl. destruct (isspace c); [|done].
  apply IH. eapply rstrip_cons_fixed, H.
Qed.

(** [strip] leaves nothing for a second [strip] to take. *)
Lemma strip_idem s : strip (strip s) = strip s.
Proof.
  unfold strip. rewrite (rstrip_lstrip (rstrip s)) by apply rstrip_idem.
  apply lstrip_idem.
Qed.

Lemma rstrip_strip s : rstrip (strip s) = strip s.
Proof. unfold strip. apply rstrip_lstrip, rstrip_idem. Qed.

Lemma rstrip_app s t : t <> "" -> rstrip t = t -> rstrip (s +:+ t) = s +:+ t.
Proof.
  intros Hne Ht. induction s as [|c s IH]; [done|].
  rewrite app_cons. simpl. rewrite IH.
  destruct (s +:+ t) eqn:E; [|done].
  destruct s; [|done]. by destruct t.
Qed.

End PyStrMore.

(** * More on the budget and packing split *)

Section SplitMore.
Import PyStr PyStrFacts PyStrMore.

(** A string in which [sep] occurs falls into the part before the first
    occurrence, [sep], and the rest. *)
Lemma occurs_first sep s :
  occurs sep s ->
  exists before after,
    s = before +:+ sep +:+ after /\ first_occurrence sep before after.
Proof.
  intros H. apply contains_occurs, contains_true in H as [i H].
  destruct (find_sound _ _ _ H) as (pre & post & -> & <-).
  exists pre, post. split; [done|]. by apply find_first_occurrence.
Qed.

Lemma extract_packing_first before after :
  first_occurrence "# Packing List" before after ->
  Crew.extract_packing (before +:+ "# Packing List" +:+ after)
  = Returns (strip before, "# Packing List" +:+ strip after).
Proof.
  intros Hfirst.
  unfold Crew.extract_packing, Crew.packing_list_marker, split1, contains.
  rewrite (find_first _ _ _ Hfirst).
  rewrite bool_decide_eq_true_2 by eauto.
  rewrite take_app.
  replace (String.length before + String.length "# Packing List")%nat
    with (String.length (before +:+ "# Packing List"))
    by apply length_app.
  by rewrite <- app_assoc, drop_app.
Qed.

Lemma split_budget_first before after :
  first_occurrence "# Packing List" before after ->
  exists mid tail,
    after = mid +:+ tail
    /\ Assistant.split_budget (before +:+ "# Packing List" +:+ after)
       = Returns (before, "# Packing List" +:+ mid)
    /\ (~ occurs "# Packing List" after -> mid = after).
Proof.
  intros Hfirst.
  destruct (split_scan_head "# Packing List" "" after)
    as (mid & tail & rest & Hscan & Hafter).
  exists mid, tail. split; [done|].
  assert (Hin : contains "Packing List" (before +:+ "# Packing List" +:+ after) = true).
  { apply contains_occurs. exists (before +:+ "# "), after. by rewrite app_assoc. }
  unfold Assistant.split_budget, split. rewrite Hin.
  rewrite split_scan_first by done. rewrite Hscan. split; [done|].
  intros Hno. apply not_occurs_find in Hno.
  rewrite (split_scan_none _ "" _ Hno) in Hscan. by injection Hscan.
Qed.

(** X1: Neither variant's split raises, and the budget section it returns
    never contains the marker "# Packing List", whatever the text. *)
Theorem budget_section_without_marker (text : string) :
  match Crew.extract_packing text, Assistant.split_budget text with
  | Returns (budget_c, _), Returns (budget_a, _) =>
      ~ occurs "# Packing List" budget_c /\ ~ occurs "# Packing List" budget_a
  | _, _ => False
  end.
Proof.
  destruct (contains "# Packing List" text) eqn:Hc.
  - apply contains_occurs, occurs_first in Hc as (before & after & -> & Hfirst).
    rewrite (extract_packing_first _ _ Hfirst).
    destruct (split_budget_first _ _ Hfirst) as (mid & tail & _ & -> & _).
    assert (Hclean : ~ occurs "# Packing List" before)
      by (by eapply first_occurrence_clean).
    split; [|done]. intros H. apply Hclean.
    eapply occurs_trans; [exact H | apply strip_occurs].
  - pose proof (not_contains_not_occurs _ _ Hc) as Hno.
    rewrite (split_budget_no_marker _ Hno).
    unfold Crew.extract_packing, Crew.packing_list_marker. rewrite Hc. done.
Qed.

(** X2: In travel_assistant the split loses nothing of a text in which the
    marker occurs exactly once: the budget and packing sections put
    together are the text again. *)
Theorem split_budget_lossless (before after : string) :
  first_occurrence "# Packing List" before after ->
  ~ occurs "# Packing List" after ->
  exists budget packing,
    Assistant.split_budget (before +:+ "# Packing List" +:+ after)
    = Returns (budget, packing)
    /\ budget +:+ packing = before +:+ "# Packing List" +:+ after.
Proof.
  intros Hfirst Honce.
  destruct (split_budget_first _ _ Hfirst) as (mid & tail & _ & Hsplit & Hmid).
  rewrite (Hmid Honce) in Hsplit. by exists before, ("# Packing List" +:+ after).
Qed.

Lemma split_budget_lossless_witness :
  exists budget packing,
    Assistant.split_budget ("Total: 900
" +:+ "# Packing List" +:+ "
- socks
")
    = Returns (budget, packing)
    /\ budget +:+ packing = "Total: 900
" +:+ "# Packing List" +:+ "
- socks
".
Proof.
  apply (split_budget_lossless "Total: 900
" "
- socks
").
  - apply find_first_occurrence. vm_compute. reflexivity.
  - apply not_contains_not_occurs. vm_compute. reflexivity.
Defined.

(** X3: In travel_crew, when the marker occurs, both sections come out
    stripped: a further [strip] changes neither, and the packing section
    is the marker followed directly by the stripped rest. *)
Theorem extract_packing_stripped (before after : string) :
  first_occurrence "# Packing List" before after ->
  exists budget packing,
    Crew.extract_packing (before +:+ "# Packing List" +:+ after)
    = Returns (budget, packing)
    /\ strip budget = budget
    /\ strip packing = packing
    /\ packing = "# Packing List" +:+ strip after.
Proof.
  intros Hfirst. rewrite (extract_packing_first _ _ Hfirst).
  eexists _, _. split; [reflexivity|].
  split; [apply strip_idem|]. split; [|done].
  unfold strip at 1.
  destruct (strip after) as [|c z] eqn:E.
  - reflexivity.
  - rewrite rstrip_app; [done | done |].
    rewrite <- E. apply rstrip_strip.
Qed.

Lemma extract_packing_stripped_witness :
  exists budget packing,
    Crew.extract_packing (" Total: 900
" +:+ "# Packing List" +:+ " for Paris
- socks
")
    = Returns (budget, packing)
    /\ strip budget = budget
    /\ strip packing = packing
    /\ packing = "# Packing List" +:+ strip " for Paris
- socks
".
Proof.
  apply (extract_packing_stripped " Total: 900
" " for Paris
- socks
").
  apply find_first_occurrence. vm_compute. reflexivity.
Defined.

End SplitMore.

(** * More on the client *)

Section ClientMore.
Import Assistant.

Variable ollama : nat -> Payload -> Reply.

Lemma total_app l1 l2 : total (l1 ++ l2) = total l1 + total l2.
Proof. unfold total. induction l1 as [|x l1 IH]; simpl; lia. Qed.

Lemma sleeps_app l1 l2 : sleeps (l1 ++ l2) = sleeps l1 ++ sleeps l2.
Proof. unfold sleeps. apply flat_map_app. Qed.

(** Whatever the endpoint does, a loop that is [iters] attempts short of
    [max_retries] makes at most [iters] requests and sleeps no longer than
    the backoffs still ahead of it add up to. *)
Lemma loop_bounded prompt max_retries timeout iters :
  let payload := mkPayload OLLAMA_MODEL prompt false in
  forall (a : nat) w,
    Z.of_nat a + Z.of_nat iters = max_retries ->
    exists o evs n,
      query_llama_loop ollama payload max_retries timeout iters (Z.of_nat a) w
      = (o, extend w evs)
      /\ requests evs = repeat (EvPost OLLAMA_API_URL payload timeout) n
      /\ (n <= iters)%nat
      /\ (iters <> 0%nat -> (1 <= n)%nat)
      /\ 0 <= total (sleeps evs)
      /\ (iters <> 0%nat ->
          total (sleeps evs) <= 2 ^ (max_retries - 1) - 2 ^ Z.of_nat a).
Proof.
  intros payload. induction iters as [|iters IH]; intros a w Ha.
  - exists (Returns "Error: LLM request failed"), [], 0%nat.
    cbn [query_llama_loop]. unfold ret. rewrite extend_nil.
    repeat split; (done || lia).
  - assert (Hpow : 2 ^ Z.of_nat a <= 2 ^ (max_retries - 1))
      by (apply Z.pow_le_mono_r; lia).
    subst payload. rewrite loop_step.
    destruct (ollama (length (requests (trace w))) _) as [e|e|d].
    + cbv zeta. destruct (Z.ltb_spec (Z.of_nat a) (max_retries - 1)) as [Hlt|Hge].
      * match goal with
        | |- context [extend w ?l] => set (evs0 := l)
        end.
        replace (Z.of_nat a + 1) with (Z.of_nat (S a)) by lia.
        destruct (IH (S a) (extend w evs0) ltac:(lia))
          as (o & evs & n & -> & Hreq & Hn & _ & Hpos & Hle).
        exists o, (evs0 ++ evs), (S n). rewrite extend_extend.
        split; [done|]. split.
        { unfold requests in *. rewrite List.filter_app, Hreq. done. }
        split; [lia|]. split; [lia|].
        rewrite sleeps_app, total_app.
        assert (Hs0 : total (sleeps evs0) = 2 ^ Z.of_nat a) by (simpl; lia).
        assert (0 < 2 ^ Z.of_nat a) by (apply Z.pow_pos_nonneg; lia).
        specialize (Hle ltac:(lia)).
        rewrite Nat2Z.inj_succ, Z.pow_succ_r in Hle by lia.
        rewrite Hs0. split; [lia|]. intros _. lia.
      * eexists _, _, 1%nat. split; [reflexivity|].
        split; [done|]. split; [lia|]. split; [lia|].
        simpl. split; [lia|]. intros _. lia.
    + eexists _, _, 1%nat. split; [reflexivity|].
      split; [done|]. split; [lia|]. split; [lia|].
      simpl. split; [lia|]. intros _. lia.
    + destruct (d !! "response"); eexists _, _, 1%nat; (split; [reflexivity|]);
        (split; [done|]); (split; [lia|]); (split; [lia|]);
        simpl; (split; [lia|]); intros _; lia.
Qed.

(** X4: However the endpoint behaves, one call with [max_retries >= 1] makes
    between one and [max_retries] requests, all with the same payload,
    sleeps at most [2 ^ (max_retries - 1) - 1] seconds in all, and leaves
    the session as it was. *)
Theorem query_llama_bounded (prompt : string) (max_retries timeout : Z) (w : World) :
  1 <= max_retries ->
  exists o evs n,
    query_llama ollama prompt max_retries timeout w = (o, extend w evs)
    /\ requests evs
       = repeat (EvPost OLLAMA_API_URL (mkPayload OLLAMA_MODEL prompt false) timeout) n
    /\ (1 <= n)%nat /\ Z.of_nat n <= max_retries
    /\ 0 <= total (sleeps evs) <= 2 ^ (max_retries - 1) - 1
    /\ session (query_llama ollama prompt max_retries timeout w).2 = session w.
Proof.
  intros HN. unfold query_llama.
  destruct (loop_bounded prompt max_retries timeout (Z.to_nat max_retries) 0%nat w)
    as (o & evs & n & Hrun & Hreq & Hn & Hpos & Hlo & Hhi); [lia|].
  change (Z.of_nat 0) with 0 in Hrun.
  exists o, evs, n. rewrite Hrun.
  split; [done|]. split; [done|].
  split; [apply Hpos; lia|]. split; [lia|].
  split; [|done]. split; [done|].
  specialize (Hhi ltac:(lia)). simpl in Hhi. lia.
Qed.

(** X5: With no attempt allowed, the call sends nothing and returns its
    fall-through text. *)
Theorem query_llama_no_attempt (prompt : string) (max_retries timeout : Z) (w : World) :
  max_retries <= 0 ->
  query_llama ollama prompt max_retries timeout w
  = (Returns "Error: LLM request failed", w).
Proof.
  intros HN. unfold query_llama.
  replace (Z.to_nat max_retries) with 0%nat by lia. reflexivity.
Qed.

(** X6: An exception from outside the requests hierarchy is never retried: it
    leaves the call at the attempt that met it, after the transient
    failures before it have been slept off. *)
Theorem query_llama_propagates (prompt : string) (max_retries timeout : Z) (w : World)
    (k : nat) (e : string) :
  Z.of_nat k < max_retries ->
  (forall i, (i < k)%nat ->
     exists e', ollama (length (requests (trace w)) + i)%nat
                       (mkPayload OLLAMA_MODEL prompt false)
                = RequestException e') ->
  ollama (length (requests (trace w)) + k)%nat (mkPayload OLLAMA_MODEL prompt false)
  = OtherException e ->
  exists evs,
    query_llama ollama prompt max_retries timeout w = (Raises e, extend w evs)
    /\ length (requests evs) = S k
    /\ sleeps evs = List.map (fun i => 2 ^ Z.of_nat i) (seq 0 k).
Proof.
  intros Hk. unfold query_llama.
  assert (Hgen : forall k iters (a : nat) w,
            (k < iters)%nat ->
            Z.of_nat a + Z.of_nat k < max_retries ->
            (forall i, (i < k)%nat ->
               exists e', ollama (length (requests (trace w)) + i)%nat
                                 (mkPayload OLLAMA_MODEL prompt false)
                          = RequestException e') ->
            ollama (length (requests (trace w)) + k)%nat
                   (mkPayload OLLAMA_MODEL prompt false)
            = OtherException e ->
            exists evs,
              query_llama_loop ollama (mkPayload OLLAMA_MODEL prompt false)
                               max_retries timeout iters (Z.of_nat a) w
              = (Raises e, extend w evs)
              /\ length (requests evs) = S k
              /\ sleeps evs = List.map (fun i => 2 ^ Z.of_nat i) (seq a k)).
  { clear k Hk w. induction k as [|k IH]; intros iters a w Hit Ha Hfail Hexc;
      (destruct iters as [|iters]; [lia|]); rewrite loop_step.
    - rewrite Nat.add_0_r in Hexc. rewrite Hexc. eexists. split; [reflexivity|]. done.
    - destruct (Hfail 0%nat ltac:(lia)) as [e' He'].
      rewrite Nat.add_0_r in He'. rewrite He'. cbv zeta.
      rewrite (proj2 (Z.ltb_lt _ _)) by lia.
      replace (Z.of_nat a + 1) with (Z.of_nat (S a)) by lia.
      match goal with
      | |- context [extend w ?l] => set (evs0 := l)
      end.
      assert (Hreq : length (requests (trace (extend w evs0)))
                     = S (length (requests (trace w)))).
      { rewrite requests_extend. simpl. lia. }
      destruct (IH iters (S a) (extend w evs0)) as (evs & -> & Hn & Hsl).
      + lia.
      + lia.
      + intros i Hi. rewrite Hreq.
        destruct (Hfail (S i) ltac:(lia)) as [e'' He'']. exists e''.
        by rewrite <- He'', Nat.add_succ_r.
      + by rewrite Hreq, <- Hexc, Nat.add_succ_r.
      + exists (evs0 ++ evs). rewrite extend_extend. split; [done|].
        unfold requests in *. rewrite List.filter_app, length_app, Hn.
        rewrite sleeps_app, Hsl. done. }
  intros Hfail Hexc.
  apply (Hgen k (Z.to_nat max_retries) 0%nat w); (lia || done).
Qed.

End ClientMore.

Lemma query_llama_bounded_witness :
  exists o evs n,
    Assistant.query_llama (scripted [RequestException "timed out"; answer "Day 1"])
                          "plan" 3 120 pressed
    = (o, extend pressed evs)
    /\ (1 <= n)%nat /\ Z.of_nat n <= 3
    /\ 0 <= total (sleeps evs) <= 3.
Proof.
  destruct (query_llama_bounded (scripted [RequestException "timed out"; answer "Day 1"])
              "plan" 3 120 pressed ltac:(lia))
    as (o & evs & n & Hrun & _ & Hn1 & Hn2 & Hsl & _).
  exists o, evs, n. repeat split; (assumption || apply Hsl).
Defined.

Lemma query_llama_no_attempt_witness :
  Assistant.query_llama (scripted [answer "Day 1"]) "plan" 0 120 pressed
  = (Returns "Error: LLM request failed", pressed).
Proof.
  apply (query_llama_no_attempt (scripted [answer "Day 1"]) "plan" 0 120 pressed).
  lia.
Defined.

Lemma query_llama_propagates_witness :
  exists evs,
    Assistant.query_llama
      (scripted [RequestException "timed out"; OtherException "unhashable type"])
      "plan" 3 120 pressed
    = (Raises "unhashable type", extend pressed evs)
    /\ length (requests evs) = 2%nat
    /\ sleeps evs = [1].
Proof.
  apply (query_llama_propagates
           (scripted [RequestException "timed out"; OtherException "unhashable type"])
           "plan" 3 120 pressed 1 "unhashable type").
  - lia.
  - intros i Hi. destruct i as [|i]; [eexists; reflexivity | lia].
  - reflexivity.
Defined.

(** * The prompts *)

Section Prompts.
Import PyStr PyStrFacts PyStrMore.

(** Finds [x] among the pieces a text is put together from. *)
Ltac find_piece :=
  repeat first [ apply occurs_here | apply occurs_app_r ].

(** X7: Every prompt of travel_assistant and every task description of
    travel_crew carries the destination; those of the itinerary and safety
    stages carry both dates as well. *)
Theorem prompts_carry_request (selected_model : string) (user_input : UserInput) (s : Stage) :
  occurs (destination user_input) (Assistant.stage_prompt s user_input)
  /\ occurs (destination user_input)
            (description (Crew.stage_task selected_model user_input s))
  /\ (s = Itinerary \/ s = Safety ->
      occurs (start_date user_input) (Assistant.stage_prompt s user_input)
      /\ occurs (end_date user_input) (Assistant.stage_prompt s user_input)
      /\ occurs (start_date user_input)
                (description (Crew.stage_task selected_model user_input s))
      /\ occurs (end_date user_input)
                (description (Crew.stage_task selected_model user_input s))).
Proof.
  split; [|split].
  - destruct s; cbn [Assistant.stage_prompt];
      unfold Assistant.planner_agent_prompt, Assistant.experience_agent_prompt,
        Assistant.recommendation_agent_prompt, Assistant.safety_agent_prompt,
        Assistant.budget_agent_prompt; find_piece.
  - destruct s; cbv beta iota zeta delta
      [Crew.stage_task Crew.create_tasks Crew.create_agents description]; find_piece.
  - intros [-> | ->]; cbv beta iota zeta delta
      [Assistant.stage_prompt Assistant.planner_agent_prompt Assistant.safety_agent_prompt
       Crew.stage_task Crew.create_tasks Crew.create_agents description];
      repeat split; find_piece.
Qed.

End Prompts.

Lemma prompts_carry_request_witness :
  PyStr.occurs "Paris, France" (Assistant.stage_prompt Itinerary sample_input)
  /\ PyStr.occurs "2024-06-01" (Assistant.stage_prompt Itinerary sample_input)
  /\ PyStr.occurs "2024-06-08"
            (description (Crew.stage_task Crew.OLLAMA_MODEL sample_input Itinerary)).
Proof.
  destruct (prompts_carry_request Crew.OLLAMA_MODEL sample_input Itinerary)
    as (Hd & _ & Hdates).
  destruct Hdates as (Hs & _ & _ & He); [by left|].
  repeat split; assumption.
Defined.

(** X8: The prompts of two different stages differ, whatever the request: the
    requests in a trace tell which stage sent them. *)
Theorem stage_prompts_differ (user_input : UserInput) (s s' : Stage) :
  Assistant.stage_prompt s user_input = Assistant.stage_prompt s' user_input ->
  s = s'.
Proof.
  intros H. apply (f_equal (PyStr.take 23)) in H.
  destruct s, s'; try reflexivity; exfalso; vm_compute in H; discriminate H.
Qed.

Lemma stage_prompts_differ_witness : Safety = Safety.
Proof.
  apply (stage_prompts_differ sample_input Safety Safety). reflexivity.
Defined.

(** * More on the pipelines *)

Section AssistantRuns.
Import Assistant.

Variable ollama : nat -> Payload -> Reply.

(** The next agent call of the run described by [H]. *)
Ltac next_stage s ui H :=
  let o := fresh "o" in
  let evs := fresh "evs" in
  let n := fresh "n" in
  let Hag := fresh "Hag" in
  match type of H with
  | (_ ≫= _) ?w0 = _ =>
      destruct (stage_agent_runs ollama s ui w0) as (o & evs & n & Hag & _);
      cbn [stage_agent] in Hag; rewrite bind_run, Hag in H; clear Hag n;
      destruct o as [?text|?e];
      [ rewrite bind_run in H; cbn [store] in H
      | injection H as <- <- ]
  end.

(** A leaf of the run: the stores made so far account for the session. *)
Ltac stores_so_far l k :=
  exists l; unfold extend, assign_all;
  cbn [session results processing trace foldl fst snd];
  split; [reflexivity|]; right; eexists _, k;
  repeat split; (reflexivity || lia).

(** What a run of the [try] body leaves in the session: the entries it
    stored, on top of those that were there, the keys being an initial
    stretch of [result_keys]; all six when the body returns, at most the
    first four when it raises. *)
Lemma run_agents_stores user_input w :
  let r := run_agents ollama user_input w in
  exists stored,
    results (session r.2) = assign_all (results (session w)) stored
    /\ ((r.1 = Returns tt /\ stored.*1 = result_keys
         /\ processing (session r.2) = false)
        \/ (exists e k,
               r.1 = Raises e /\ stored.*1 = take k result_keys /\ (k <= 4)%nat
               /\ processing (session r.2) = processing (session w))).
Proof.
  intros r. subst r.
  destruct (run_agents ollama user_input w) as [o w'] eqn:H.
  unfold run_agents in H. cbn [fst snd].
  next_stage Itinerary user_input H; [|stores_so_far (@nil (string * string)) 0%nat].
  next_stage Experiences user_input H;
    [|stores_so_far [("itinerary", text)] 1%nat].
  next_stage Recommendations user_input H;
    [|stores_so_far [("itinerary", text); ("experiences", text0)] 2%nat].
  next_stage Safety user_input H;
    [|stores_so_far [("itinerary", text); ("experiences", text0);
                     ("recommendations", text1)] 3%nat].
  match type of H with
  | (_ ≫= _) ?w0 = _ =>
      destruct (stage_agent_runs ollama Budget user_input w0) as (o5 & evs3 & n & Hag & _);
      cbn [stage_agent] in Hag; rewrite bind_run, Hag in H; clear Hag n;
      destruct o5 as [budget_result|e]
  end.
  - rewrite bind_run in H. unfold lift at 1 in H.
    destruct (split_budget budget_result) as [[b p]|e].
    + rewrite !bind_run in H.
      cbn [store emit set_processing session results processing trace] in H.
      injection H as <- <-.
      exists [("itinerary", text); ("experiences", text0); ("recommendations", text1);
              ("safety", text2); ("budget", b); ("packing", p)].
      unfold extend, assign_all.
      cbn [session results processing trace foldl fst snd].
      split; [reflexivity|]. left. done.
    + injection H as <- <-.
      stores_so_far [("itinerary", text); ("experiences", text0);
                     ("recommendations", text1); ("safety", text2)] 4%nat.
  - injection H as <- <-.
    stores_so_far [("itinerary", text); ("experiences", text0);
                   ("recommendations", text1); ("safety", text2)] 4%nat.
Qed.

End AssistantRuns.

Section Sessions.

#[local] Set Warnings "-clear-no-such-hyp".

Lemma assign_all_snoc (m : gmap string string) stored k v :
  assign_all m (stored ++ [(k, v)]) = <[k:=v]> (assign_all m stored).
Proof. unfold assign_all. by rewrite foldl_app. Qed.

(** Assignments only add keys. *)
Lemma dom_assign_all (m : gmap string string) stored :
  dom (assign_all m stored) = dom m ∪ list_to_set stored.*1.
Proof.
  induction stored as [|[k v] stored IH] using rev_ind.
  - simpl. set_solver.
  - rewrite assign_all_snoc, dom_insert_L, IH, fmap_app, list_to_set_app_L.
    simpl. set_solver.
Qed.

(** Assignments leave the other keys alone. *)
Lemma lookup_assign_all_other (m : gmap string string) stored k :
  k ∉ stored.*1 -> assign_all m stored !! k = m !! k.
Proof.
  induction stored as [|[k' v] stored IH] using rev_ind; [done|].
  rewrite fmap_app. simpl. intros Hk.
  rewrite assign_all_snoc, lookup_insert_ne by set_solver.
  apply IH. set_solver.
Qed.

End Sessions.

Section AssistantSession.
Import Assistant.

#[local] Set Warnings "-clear-no-such-hyp".

Variable ollama : nat -> Payload -> Reply.

(** What the processing block of travel_assistant leaves in the session
    when the flag was set. *)
Lemma processing_block_stores user_input w :
  processing (session w) = true ->
  exists stored k,
    results (session (processing_block ollama user_input w).2)
    = assign_all (results (session w)) stored
    /\ stored.*1 = take k result_keys
    /\ processing (session (processing_block ollama user_input w).2) = false.
Proof.
  intros Hp. unfold processing_block, try_except. rewrite Hp.
  destruct (run_agents_stores ollama user_input w) as (stored & Hres & Hcase).
  destruct (run_agents ollama user_input w) as [o w'].
  cbn [fst snd] in *. exists stored.
  destruct Hcase as [(-> & Hkeys & Hflag) | (e & k & -> & Hkeys & _ & _)].
  - exists 6%nat. done.
  - exists k. unfold planning_failed. rewrite !bind_run.
    cbn [emit set_processing session results processing trace fst snd]. done.
Qed.

(** X9: The processing block of travel_assistant always leaves the processing
    flag cleared, whether the run went through, raised, or was not due;
    when the flag was not set it does nothing at all. *)
Theorem processing_block_clears_flag (user_input : UserInput) (w : World) :
  processing (session (processing_block ollama user_input w).2) = false
  /\ (processing (session w) = false ->
      processing_block ollama user_input w = (Returns tt, w)).
Proof.
  destruct (processing (session w)) eqn:Hp.
  - split; [|done].
    by destruct (processing_block_stores user_input w Hp) as (? & ? & _ & _ & ?).
  - unfold processing_block. rewrite Hp. done.
Qed.

(** X10: The processing block of travel_assistant never drops an entry of the
    session: every key present before is present after, and a key other
    than the six result keys keeps its value, so entries of an earlier
    plan stay until they are overwritten. *)
Theorem processing_block_keeps_entries (user_input : UserInput) (w : World) (k : string) :
  let before := results (session w) in
  let after := results (session (processing_block ollama user_input w).2) in
  (is_Some (before !! k) -> is_Some (after !! k))
  /\ (k ∉ result_keys -> after !! k = before !! k).
Proof.
  intros before after. subst before after.
  destruct (processing (session w)) eqn:Hp.
  - destruct (processing_block_stores user_input w Hp) as (stored & j & -> & Hkeys & _).
    split.
    + rewrite <- !elem_of_dom, dom_assign_all. set_solver.
    + intros Hk. apply lookup_assign_all_other. rewrite Hkeys.
      intros Hin. apply Hk. eapply subseteq_take, Hin.
  - unfold processing_block. rewrite Hp. done.
Qed.

(** X11: A run of travel_assistant that goes through leaves all six result
    keys in the session, on top of whatever was there. *)
Theorem run_agents_fills_keys (user_input : UserInput) (w w' : World) :
  run_agents ollama user_input w = (Returns tt, w') ->
  dom (results (session w')) = dom (results (session w)) ∪ list_to_set result_keys.
Proof.
  intros Hrun.
  destruct (run_agents_stores ollama user_input w) as (stored & Hres & Hcase).
  rewrite Hrun in Hres, Hcase. cbn [fst snd] in *.
  destruct Hcase as [(_ & Hkeys & _) | (e & k & [=] & _)].
  by rewrite Hres, dom_assign_all, Hkeys.
Qed.

End AssistantSession.

Lemma processing_block_clears_flag_witness :
  processing
    (session (Assistant.processing_block (scripted [OtherException "unhashable type"])
                                         sample_input pressed).2) = false
  /\ Assistant.processing_block (scripted []) sample_input (mkWorld (mkSession ∅ false) [])
     = (Returns tt, mkWorld (mkSession ∅ false) []).
Proof.
  split.
  - apply (processing_block_clears_flag (scripted [OtherException "unhashable type"])
                                        sample_input pressed).
  - apply (processing_block_clears_flag (scripted []) sample_input
                                        (mkWorld (mkSession ∅ false) [])).
    reflexivity.
Defined.

Lemma processing_block_keeps_entries_witness :
  let w := mkWorld (mkSession {[ "notes" := "window seat" ]} true) [] in
  results (session (Assistant.processing_block (scripted [OtherException "unhashable type"])
                                               sample_input w).2) !! "notes"
  = Some "window seat".
Proof.
  intros w.
  destruct (processing_block_keeps_entries (scripted [OtherException "unhashable type"])
                                           sample_input w "notes") as [_ Hother].
  rewrite Hother; [reflexivity|].
  unfold result_keys. rewrite !not_elem_of_cons.
  repeat split; (discriminate || apply not_elem_of_nil).
Defined.

Lemma run_agents_fills_keys_witness :
  let ollama := scripted [answer "Day 1"; answer "Markets"; answer "Hotel";
                          answer "Stay alert"; answer "Total: 900"] in
  dom (results (session (Assistant.run_agents ollama sample_input pressed).2))
  = dom (results (session pressed)) ∪ list_to_set result_keys.
Proof.
  intros ollama.
  apply (run_agents_fills_keys ollama sample_input pressed).
  vm_compute. reflexivity.
Defined.

Section Outage.
Import Assistant.

Variable ollama : nat -> Payload -> Reply.

(** A stage of the run described by [H] against an endpoint that is
    down. *)
Ltac down_stage Hdown prompt_ H :=
  let evs := fresh "evs" in
  let Hq := fresh "Hq" in
  let Hreq := fresh "Hreq" in
  match type of H with
  | (_ ≫= _) ?w0 = _ =>
      destruct (query_llama_exhausts ollama prompt_ 3 120 w0 ltac:(lia)
                  (fun i _ => Hdown _ _)) as (evs & Hq & Hreq);
      change ("Error: LLM request failed after " +:+ PyStr.of_int 3 +:+ " attempts")
        with "Error: LLM request failed after 3 attempts" in Hq;
      rewrite bind_run in H;
      cbv beta delta [planner_agent experience_agent recommendation_agent
                      safety_agent budget_agent] in H;
      rewrite Hq in H; clear Hq;
      rewrite bind_run in H; cbn [store] in H
  end.

(** X12: With the endpoint down for good (every request fails transiently),
    travel_assistant does not report a failure: after fifteen requests,
    three per stage, the run ends with status "complete", the failure
    text stored under the five stage keys and the placeholder under
    "packing". *)
Theorem outage_ends_complete (user_input : UserInput) (w : World) :
  (forall n payload, exists e, ollama n payload = RequestException e) ->
  processing (session w) = true ->
  let failure := "Error: LLM request failed after 3 attempts" in
  exists evs,
    processing_block ollama user_input w
    = (Returns tt,
       mkWorld
         (mkSession
            (assign_all (results (session w))
               [("itinerary", failure); ("experiences", failure);
                ("recommendations", failure); ("safety", failure);
                ("budget", failure); ("packing", "Packing list not generated")])
            false)
         (trace w ++ evs ++ [EvStatus "complete"; EvProcessing false; EvRerun]))
    /\ length (requests evs) = 15%nat.
Proof.
  intros Hdown Hp failure.
  unfold processing_block, try_except. rewrite Hp.
  destruct (run_agents ollama user_input w) as [o w'] eqn:H.
  unfold run_agents in H.
  down_stage Hdown (planner_agent_prompt user_input) H.
  down_stage Hdown (experience_agent_prompt user_input) H.
  down_stage Hdown (recommendation_agent_prompt user_input) H.
  down_stage Hdown (safety_agent_prompt user_input) H.
  match type of H with
  | (_ ≫= _) ?w0 = _ =>
      destruct (query_llama_exhausts ollama (budget_agent_prompt user_input) 3 120 w0
                  ltac:(lia) (fun i _ => Hdown _ _)) as (evs3 & Hq & Hreq3);
      change ("Error: LLM request failed after " +:+ PyStr.of_int 3 +:+ " attempts")
        with "Error: LLM request failed after 3 attempts" in Hq;
      rewrite bind_run in H; cbv beta delta [budget_agent] in H;
      rewrite Hq in H; clear Hq; cbv beta iota in H
  end.
  rewrite bind_run in H. unfold lift at 1 in H.
  change (split_budget "Error: LLM request failed after 3 attempts")
    with (Returns ("Error: LLM request failed after 3 attempts",
                   "Packing list not generated")) in H.
  cbv beta iota in H.
  repeat (rewrite bind_run in H; cbn [store emit set_processing] in H).
  cbn [emit session results processing trace fst snd] in H.
  injection H as <- <-.
  exists (evs ++ [EvStore "itinerary" failure] ++ evs0 ++ [EvStore "experiences" failure]
          ++ evs1 ++ [EvStore "recommendations" failure]
          ++ evs2 ++ [EvStore "safety" failure] ++ evs3
          ++ [EvStore "budget" failure; EvStore "packing" "Packing list not generated"]).
  split.
  - unfold extend, assign_all.
    cbn [session results processing trace foldl fst snd].
    do 2 f_equal. repeat (progress (simpl; rewrite <- ?app_assoc)). reflexivity.
  - unfold requests in *. rewrite !List.filter_app, !length_app.
    rewrite Hreq, Hreq0, Hreq1, Hreq2, Hreq3. reflexivity.
Qed.

End Outage.

Lemma outage_ends_complete_witness :
  exists evs,
    trace (Assistant.processing_block (scripted []) sample_input pressed).2
    = evs ++ [EvStatus "complete"; EvProcessing false; EvRerun]
    /\ length (requests evs) = 15%nat.
Proof.
  destruct (outage_ends_complete (scripted []) sample_input pressed) as (evs & Hrun & Hreq).
  - intros n payload. eexists. reflexivity.
  - reflexivity.
  - exists evs. rewrite Hrun. split; [reflexivity | exact Hreq].
Defined.

Section CrewSession.
Import Crew.

#[local] Set Warnings "-clear-no-such-hyp".

Variable execute_task : nat -> Task -> TaskReply.

(** X13: The processing block of travel_crew always leaves the processing flag
    cleared, and when it ran it replaces the session's results wholesale:
    they are the error entry alone, or exactly the six result keys;
    nothing that was there before the run is kept. *)
Theorem crew_block_replaces_results (selected_model : string) (user_input : UserInput)
    (w : World) :
  let w' := (processing_block execute_task selected_model user_input w).2 in
  processing (session w') = false
  /\ (processing (session w) = true ->
      (exists e, results (session w') = {[ "error" := "Failed to generate plan: " +:+ e ]})
      \/ dom (results (session w')) = list_to_set result_keys).
Proof.
  intros w'. subst w'. unfold processing_block, try_except.
  destruct (processing (session w)) eqn:Hp; [|by split].
  destruct (run_crew execute_task selected_model user_input w) as [o w1] eqn:H.
  destruct o as [[]|e].
  - cbn [snd].
    destruct (run_crew_tasks execute_task selected_model user_input w)
      as (o & n & Hn & Hrun & Hall).
    cbv beta iota zeta delta [run_crew create_agents create_tasks] in H.
    rewrite bind_run in H.
    match type of Hrun with
    | ?lhs = _ =>
        match type of H with
        | context [kickoff execute_task ?c w] =>
            change (kickoff execute_task c w) with lhs in H
        end
    end.
    rewrite Hrun in H. destruct o as [outs|]; [|discriminate H].
    rewrite bind_run in H. unfold lift at 1 in H.
    destruct (extract_packing _) as [[b p]|]; [|discriminate H].
    injection H as <-.
    cbn [set_results emit set_processing session results processing trace fst snd].
    split; [done|]. intros _. right.
    rewrite !dom_insert_L, dom_empty_L. unfold result_keys. set_solver.
  - unfold planning_failed. rewrite !bind_run.
    cbn [set_results emit set_processing session results processing trace fst snd].
    split; [done|]. intros _. left. by exists e.
Qed.

End CrewSession.

Lemma crew_block_replaces_results_witness :
  let w := mkWorld (mkSession {[ "notes" := "window seat" ]} true) [] in
  let w' := (Crew.processing_block (scripted_tasks [TaskException "model crashed"])
                                   Crew.OLLAMA_MODEL sample_input w).2 in
  processing (session w') = false
  /\ ((exists e, results (session w') = {[ "error" := "Failed to generate plan: " +:+ e ]})
      \/ dom (results (session w')) = list_to_set result_keys).
Proof.
  intros w w'.
  destruct (crew_block_replaces_results (scripted_tasks [TaskException "model crashed"])
                                        Crew.OLLAMA_MODEL sample_input w) as [Hflag Hres].
  split; [exact Hflag|]. apply Hres. reflexivity.
Defined.

(** * The page of travel_crew *)

Section PageFacts.
Import Crew.

Variable models_api : nat -> string -> ModelsReply.

Lemma startswith_prefixed name : PyStr.startswith "ollama/" ("ollama/" +:+ name) = true.
Proof. apply PyStrFacts.startswith_app. Qed.

(** What [get_ollama_models] comes to, by the reply it meets. *)
Lemma get_ollama_models_cases w :
  let url := OLLAMA_BASE_URL +:+ "/api/tags" in
  get_ollama_models models_api w
  = match models_api (length (requests (trace w))) url with
    | ModelsException e =>
        (Returns [OLLAMA_MODEL],
         extend w [EvGet url; EvLogError ("Failed to fetch models: " +:+ e)])
    | ModelsJson models =>
        match mapM id (default [] models) with
        | Some names =>
            (Returns ((fun name => "ollama/" +:+ name) <$> names), extend w [EvGet url])
        | None =>
            (Returns [OLLAMA_MODEL],
             extend w [EvGet url; EvLogError "Failed to fetch models: 'name'"])
        end
    end.
Proof.
  unfold get_ollama_models, extend. cbv zeta.
  destruct (models_api _ _) as [e|models].
  - rewrite bind_run. unfold emit, ret. cbn [session trace].
    by rewrite <- app_assoc.
  - destruct (mapM id (default [] models)); [done|].
    rewrite bind_run. unfold emit, ret. cbn [session trace].
    by rewrite <- app_assoc.
Qed.

Lemma get_ollama_models_runs w :
  exists names evs,
    get_ollama_models models_api w
    = (Returns names, extend w (EvGet (OLLAMA_BASE_URL +:+ "/api/tags") :: evs))
    /\ requests evs = []
    /\ Forall (fun name => PyStr.startswith "ollama/" name = true) names.
Proof.
  rewrite get_ollama_models_cases. cbv zeta.
  destruct (models_api _ _) as [e|models].
  - eexists _, [_]. split; [reflexivity|]. split; [done|]. by repeat constructor.
  - destruct (mapM id (default [] models)) as [names|].
    + eexists _, []. split; [reflexivity|]. split; [done|].
      apply Forall_fmap, Forall_true. intros name. apply startswith_prefixed.
    + eexists _, [_]. split; [reflexivity|]. split; [done|]. by repeat constructor.
Qed.

(** X14: [get_ollama_models] never raises: with one GET it returns the served
    names, each behind "ollama/" and in the order served, and falls back to
    the default model alone when the request fails or a model comes
    without a name. Every name it returns starts with "ollama/". *)
Theorem get_ollama_models_total (w : World) :
  let reply :=
    models_api (length (requests (trace w))) (OLLAMA_BASE_URL +:+ "/api/tags") in
  exists names evs,
    get_ollama_models models_api w
    = (Returns names, extend w (EvGet (OLLAMA_BASE_URL +:+ "/api/tags") :: evs))
    /\ requests evs = []
    /\ Forall (fun name => PyStr.startswith "ollama/" name = true) names
    /\ (forall served,
          reply = ModelsJson (Some (Some <$> served)) ->
          names = (fun name => "ollama/" +:+ name) <$> served)
    /\ (forall e, reply = ModelsException e -> names = [OLLAMA_MODEL])
    /\ (forall before after,
          reply = ModelsJson (Some (before ++ None :: after)) ->
          names = [OLLAMA_MODEL]).
Proof.
  intros reply.
  destruct (get_ollama_models_runs w) as (names & evs & Hrun & Hreq & Hpre).
  exists names, evs. repeat (split; [done|]).
  rewrite get_ollama_models_cases in Hrun. cbv zeta in Hrun. fold reply in Hrun.
  split; [|split].
  - intros served He. rewrite He in Hrun.
    change (default [] (Some (Some <$> served))) with (Some <$> served) in Hrun.
    rewrite mapM_fmap_Some in Hrun by done. by injection Hrun as <- _.
  - intros e He. rewrite He in Hrun. by injection Hrun as <- _.
  - intros before after He. rewrite He in Hrun.
    change (default [] (Some (before ++ None :: after)))
      with (before ++ @None string :: after) in Hrun.
    rewrite (proj2 (mapM_None id (before ++ None :: after))) in Hrun.
    + by injection Hrun as <- _.
    + apply Exists_app. right. by left.
Qed.

Lemma list_index_found x l :
  x ∈ l -> exists i, list_index x l = Some i /\ l !! i = Some x.
Proof.
  induction l as [|y l IH]; intros Hin; [by apply elem_of_nil in Hin|].
  simpl. destruct (decide (y = x)) as [->|Hne]; [by exists 0%nat|].
  apply elem_of_cons in Hin as [->|Hin]; [done|].
  destruct (IH Hin) as (i & -> & Hi). by exists (S i).
Qed.

(** X15: The select box of the sidebar always offers the default model and
    starts on it, whatever the service returned, and everything it offers
    starts with "ollama/". *)
Theorem model_settings_default (w : World) :
  match (model_settings models_api w).1 with
  | Returns (available_models, index) =>
      available_models !! index = Some OLLAMA_MODEL
      /\ Forall (fun name => PyStr.startswith "ollama/" name = true) available_models
  | Raises _ => False
  end.
Proof.
  unfold model_settings. rewrite bind_run.
  destruct (get_ollama_models_runs w) as (names & evs & -> & _ & Hpre).
  cbv zeta. unfold mret, M_ret, ret. cbn [fst].
  destruct (bool_decide (OLLAMA_MODEL ∈ names)) eqn:Hin.
  - rewrite Hin. apply bool_decide_eq_true in Hin.
    destruct (list_index_found _ _ Hin) as (i & -> & Hi). done.
  - rewrite bool_decide_eq_true_2 by left.
    cbn [list_index]. rewrite decide_True by done.
    split; [done|]. by constructor.
Qed.

End PageFacts.

Lemma get_ollama_models_total_witness :
  exists evs,
    Crew.get_ollama_models
      (fun _ _ => ModelsJson (Some (Some <$> ["llama3.2:latest"; "mistral:7b"]))) pressed
    = (Returns ["ollama/llama3.2:latest"; "ollama/mistral:7b"],
       extend pressed (EvGet (Crew.OLLAMA_BASE_URL +:+ "/api/tags") :: evs))
    /\ requests evs = [].
Proof.
  destruct (get_ollama_models_total
              (fun _ _ => ModelsJson (Some (Some <$> ["llama3.2:latest"; "mistral:7b"])))
              pressed)
    as (names & evs & Hrun & Hreq & _ & Hserved & _).
  exists evs. rewrite Hrun.
  rewrite (Hserved ["llama3.2:latest"; "mistral:7b"] eq_refl).
  split; [reflexivity | exact Hreq].
Defined.

Section Gate.
Import Crew.

Variable health_api : nat -> string -> HealthReply.
Variable execute_task : nat -> Task -> TaskReply.

(** X16: Unless the health check meets status 200, the page of travel_crew
    stops before the processing block: apart from the one GET nothing is
    requested, no task is handed over, and the session, the processing
    flag with it, stays as it was. With status 200 the processing block
    runs right after the GET. *)
Theorem health_check_gates_run (selected_model : string) (user_input : UserInput)
    (w : World) :
  let url := OLLAMA_BASE_URL +:+ "/api/tags" in
  let reply := health_api (length (requests (trace w))) url in
  (reply <> HealthStatus 200 ->
   (forall e, reply <> HealthOtherException e) ->
   exists evs,
     main_content health_api execute_task selected_model user_input w
     = (Returns tt, extend w evs)
     /\ requests evs = [EvGet url])
  /\ (reply = HealthStatus 200 ->
      main_content health_api execute_task selected_model user_input w
      = processing_block execute_task selected_model user_input (extend w [EvGet url])).
Proof.
  intros url reply. unfold main_content. rewrite bind_run.
  unfold check_ollama_health. cbv zeta. fold url. fold reply.
  split.
  - intros Hnot Hother. destruct reply as [e|e|code] eqn:Hreply.
    + rewrite bind_run. unfold emit, ret, extend. cbn [session trace negb].
      eexists [_; _; _]. rewrite <- !app_assoc. split; [reflexivity|]. done.
    + by destruct (Hother e).
    + unfold ret. rewrite bool_decide_eq_false_2 by congruence.
      unfold emit, extend. cbn [session trace negb].
      eexists [_; _]. rewrite <- !app_assoc. split; [reflexivity|]. done.
  - intros ->. unfold ret. by rewrite bool_decide_eq_true_2.
Qed.

End Gate.

Lemma health_check_gates_run_witness :
  exists evs,
    Crew.main_content (fun _ _ => HealthStatus 503)
                      (scripted_tasks [TaskOutput (Some "Day 1")])
                      Crew.OLLAMA_MODEL sample_input pressed
    = (Returns tt, extend pressed evs)
    /\ requests evs = [EvGet (Crew.OLLAMA_BASE_URL +:+ "/api/tags")].
Proof.
  apply (health_check_gates_run (fun _ _ => HealthStatus 503)
           (scripted_tasks [TaskOutput (Some "Day 1")])
           Crew.OLLAMA_MODEL sample_input pressed).
  - discriminate.
  - discriminate.
Defined.

(** * The form *)

(** X17: "Plan My Trip" takes a request only when the start date lies before
    the end date; the request it stores then has a duration of at least
    one day, and the processing flag is set. travel_assistant keeps the
    results of the session, travel_crew empties them. Dates that are
    turned down change nothing but the error shown. *)
Theorem plan_my_trip_guard (isoformat : Z -> string) (start_date end_date : Z)
    (from_location destination : string) (num_people : Z)
    (traveler_type budget_level special_requests : string) (w : World) :
  let a := Assistant.plan_my_trip isoformat start_date end_date from_location destination
             num_people traveler_type budget_level special_requests w in
  let c := Crew.plan_my_trip isoformat start_date end_date from_location destination
             num_people traveler_type budget_level special_requests w in
  if decide (start_date < end_date) then
    exists user_input,
      a.1 = Returns (Some user_input) /\ c.1 = Returns (Some user_input)
      /\ duration user_input = end_date - start_date
      /\ 1 <= duration user_input
      /\ processing (session a.2) = true /\ processing (session c.2) = true
      /\ results (session a.2) = results (session w)
      /\ results (session c.2) = ∅
  else
    a = (Returns None, extend w [EvStError "End date must be after start date"])
    /\ c = (Returns None, extend w [EvStError "End date must be after start date"]).
Proof.
  intros a c. subst a c. unfold Assistant.plan_my_trip, Crew.plan_my_trip.
  destruct (decide (start_date < end_date)) as [Hlt|Hge].
  - rewrite (proj2 (Z.leb_gt _ _)) by lia.
    eexists. rewrite !bind_run.
    cbn [set_results set_processing emit ret mret M_ret session results processing
         trace fst snd].
    repeat split; (reflexivity || (cbn [duration]; lia)).
  - rewrite (proj2 (Z.leb_le _ _)) by lia. rewrite !bind_run. done.
Qed.

(** * More on the weather tool *)

Section Weather.
Import WeatherTool.

Variable openweathermap : nat -> string -> WeatherReply.
Variable environ : gmap string string.

(** X18: [_run] sends a request exactly when the key is set to a non-empty
    text: an empty key is treated like a missing one, and a set key leads
    to one GET, whose URL carries the city, the key and metric units, and
    to nothing else. *)
Theorem weather_request_needs_key (city key : string) (w : World) :
  environ !! "OPENWEATHERMAP_API_KEY" = Some key ->
  if decide (key = "") then
    _run openweathermap environ city w
    = (Returns "Error: OpenWeatherMap API key not found in environment variables. Please set OPENWEATHERMAP_API_KEY in your .env file.",
       w)
  else
    exists o,
      _run openweathermap environ city w
      = (o, extend w [EvGet ("https://api.openweathermap.org/data/2.5/weather?q="
                             +:+ city +:+ "&appid=" +:+ key +:+ "&units=metric")]).
Proof.
  intros Hkey. unfold _run. rewrite Hkey.
  destruct (decide (key = "")) as [->|Hne]; [done|].
  destruct key as [|c key]; [done|].
  rewrite bind_run. unfold get_json. unfold extend.
  destruct (openweathermap _ _) as [e|e|body].
  - eexists. reflexivity.
  - eexists. reflexivity.
  - rewrite bind_run. unfold lift.
    destruct (read_weather city body) as [[s|e]|e]; eexists; reflexivity.
Qed.


End Weather.

Lemma weather_request_needs_key_witness :
  WeatherTool._run (fun _ _ => WeatherRequestException "unreachable")
                   {[ "OPENWEATHERMAP_API_KEY" := "" ]} "London" pressed
  = (Returns "Error: OpenWeatherMap API key not found in environment variables. Please set OPENWEATHERMAP_API_KEY in your .env file.",
     pressed).
Proof.
  apply (weather_request_needs_key (fun _ _ => WeatherRequestException "unreachable")
                                   {[ "OPENWEATHERMAP_API_KEY" := "" ]} "London" "" pressed).
  reflexivity.
Defined.

